(** * Booking / review coordination of the tours front end

    A shallow embedding of the two React hooks that keep the bookings
    cache and the reviews cache of the Redux store consistent with each
    other and with the remote API:

    - hooks/useReviews (loadTourReviews, loadUserReviews, createReview,
      updateReview, deleteReview, refreshTourReviews), and
    - hooks/useBookings.ts (loadUserBookings, updateBookingStatus,
      findBookingByTourId, markBookingAsReviewed,
      markBookingAsPendingReview, ...),

    together with the service layer of services/reviewsService.ts.

    Asynchronous code is a state-and-exception monad over a [World]: the
    Redux store, the booking statuses held by the remote store and the log
    of the remote calls issued so far.  [await] is sequencing, [throw] and
    [try ... catch] are the exception part, and the state survives a
    throw, as the dispatches made before it do.  A hook reads the slices
    selected when the component rendered (the variables [reviewsState] and
    [bookingsState]) and writes to the store through [dispatch]; the two
    are kept apart, as in the source.

    Console output has no effect on the state and is left out.  The
    services are modelled on their request path; the mock branch taken
    when [isMockEnabled ()] answers without a request and is one of the
    behaviours a [Backend] can have.  The answer of the backend is taken
    after [transformReview] has put it in canonical shape.

    Beside the coordination claims, the file covers the pure parts of the
    service ([generateMockReviews], [transformReview] over a small model of
    wire values), the getters of both hooks, and the dialog handlers of
    components/profile/reviews/ProfileReviews.tsx.  Left out: the checkout
    redirect of [useBookings] (it navigates the browser) and [useAuth],
    whose slice and service are not among the sources. *)

From Stdlib Require Import ZArith.
From stdpp Require Import base option list strings gmap fin_maps.

Local Open Scope string_scope.
Local Open Scope list_scope.

(** ** Entities *)

Module Booking.
(** The fields of [BookingDisplayData] the hooks read or write. *)
Record t := mk { id : string; tourId : string; status : string }.
End Booking.

Module ReviewUser.
Record t := mk { id : string; name : string; photo : string }.
End ReviewUser.

Module Review.
(** The canonical [Review] built by [transformReview]. *)
Record t := mk {
  id : string;
  review : string;
  rating : Z;
  createdAt : string;
  updatedAt : option string;
  tour : string;
  user : ReviewUser.t
}.
End Review.

Module CreateReviewData.
Record t := mk { tour : string; rating : Z; review : string }.
End CreateReviewData.

Module UpdateReviewData.
Record t := mk {
  rating : option Z;
  review : option string;
  updatedAt : option string
}.
End UpdateReviewData.

Module Tour.
(** The fields of a tour of [toursState.allTours] that the hooks read. *)
Record t := mk { id : string; name : string; slug : string; imageCover : string }.
End Tour.

Module TourInfo.
Record t := mk { id : string; name : string; slug : string; imageCover : string }.
End TourInfo.

Module ReviewWithTourInfo.
(** [{ ...review, tourInfo }] *)
Record t := mk { review : Review.t; tourInfo : TourInfo.t }.
End ReviewWithTourInfo.

(** A value of the wire format, as [transformReview] receives it
    ([review: any]).  Numbers are the integers (ratings); JSON has no NaN. *)
#[local] Set Warnings "-register-all".
Inductive JSValue :=
| JUndefined
| JNull
| JBool (b : bool)
| JNumber (n : Z)
| JString (s : string)
| JArray (items : list JSValue)
| JObject (fields : gmap string JSValue).
#[local] Set Warnings "register-all".

(** ** Redux store *)

Module ReviewsState.
Record t := mk {
  tourReviews : gmap string (list Review.t);
  userReviews : list Review.t;
  currentReview : option Review.t;
  isLoading : bool;
  isSubmitting : bool;
  error : option string
}.
End ReviewsState.

Module BookingsState.
Record t := mk {
  userBookings : list Booking.t;
  currentBooking : option Booking.t;
  isLoading : bool;
  isSubmitting : bool;
  error : option string
}.
End BookingsState.

Record RootState := mkRoot {
  reviews : ReviewsState.t;
  bookings : BookingsState.t
}.

(** Actions of [reviewsSlice]. *)
Inductive ReviewsAction :=
| setLoading (b : bool)
| setSubmitting (b : bool)
| setError (msg : string)
| clearError
| setTourReviews (tourId : string) (rs : list Review.t)
| setUserReviews (rs : list Review.t)
| addUserReview (r : Review.t)
| updateUserReview (r : Review.t)
| removeUserReview (reviewId : string)
| setCurrentReview (r : Review.t)
| clearCurrentReview
| clearTourReviews (tourId : string)
| clearUserReviews.

(** Actions of [bookingsSlice]. *)
Inductive BookingsAction :=
| setBookingsLoading (b : bool)
| setBookingsSubmitting (b : bool)
| setBookingsError (msg : string)
| clearBookingsError
| setUserBookings (bs : list Booking.t)
| updateUserBookingStatus (bookingId : string) (status : string)
| setCurrentBooking (b : Booking.t)
| clearCurrentBooking
| clearUserBookings.

Inductive Action :=
| ReviewsA (a : ReviewsAction)
| BookingsA (a : BookingsAction).

Coercion ReviewsA : ReviewsAction >-> Action.
Coercion BookingsA : BookingsAction >-> Action.

Definition withStatus (status : string) (b : Booking.t) : Booking.t :=
  Booking.mk (Booking.id b) (Booking.tourId b) status.

(** Modelled from the spec: the reducer of [reviewsSlice]
    (store/slices/reviewsSlice) is not among the sources.  Each action
    writes the field its name says: the reviews cache holds the reviews by
    tour id and the current user's own reviews; a created review is added
    to the user's reviews, an updated one replaces the entry with its id,
    a deleted one is removed by id; clearing a tour drops its entry. *)
Definition reviewsReducer (s : ReviewsState.t) (a : ReviewsAction) : ReviewsState.t :=
  let tr := ReviewsState.tourReviews s in
  let ur := ReviewsState.userReviews s in
  let cr := ReviewsState.currentReview s in
  let ld := ReviewsState.isLoading s in
  let sb := ReviewsState.isSubmitting s in
  let er := ReviewsState.error s in
  match a with
  | setLoading b => ReviewsState.mk tr ur cr b sb er
  | setSubmitting b => ReviewsState.mk tr ur cr ld b er
  | setError msg => ReviewsState.mk tr ur cr ld sb (Some msg)
  | clearError => ReviewsState.mk tr ur cr ld sb None
  | setTourReviews tourId rs => ReviewsState.mk (<[tourId := rs]> tr) ur cr ld sb er
  | setUserReviews rs => ReviewsState.mk tr rs cr ld sb er
  | addUserReview r => ReviewsState.mk tr (ur ++ [r]) cr ld sb er
  | updateUserReview r =>
      ReviewsState.mk tr
        (map (fun x => if bool_decide (Review.id x = Review.id r) then r else x) ur)
        cr ld sb er
  | removeUserReview reviewId =>
      ReviewsState.mk tr
        (filter (fun x => Review.id x ≠ reviewId) ur) cr ld sb er
  | setCurrentReview r => ReviewsState.mk tr ur (Some r) ld sb er
  | clearCurrentReview => ReviewsState.mk tr ur None ld sb er
  | clearTourReviews tourId => ReviewsState.mk (delete tourId tr) ur cr ld sb er
  | clearUserReviews => ReviewsState.mk tr [] None ld sb er
  end.

(** Modelled from the spec: the reducer of [bookingsSlice]
    (store/slices/bookingsSlice) is not among the sources.  The bookings
    cache is keyed by booking id; [updateUserBookingStatus] sets the status
    of the booking with the given id and touches nothing else. *)
Definition bookingsReducer (s : BookingsState.t) (a : BookingsAction) : BookingsState.t :=
  let ub := BookingsState.userBookings s in
  let cb := BookingsState.currentBooking s in
  let ld := BookingsState.isLoading s in
  let sb := BookingsState.isSubmitting s in
  let er := BookingsState.error s in
  match a with
  | setBookingsLoading b => BookingsState.mk ub cb b sb er
  | setBookingsSubmitting b => BookingsState.mk ub cb ld b er
  | setBookingsError msg => BookingsState.mk ub cb ld sb (Some msg)
  | clearBookingsError => BookingsState.mk ub cb ld sb None
  | setUserBookings bs => BookingsState.mk bs cb ld sb er
  | updateUserBookingStatus bookingId status =>
      BookingsState.mk
        (map (fun b => if bool_decide (Booking.id b = bookingId)
                       then withStatus status b else b) ub)
        cb ld sb er
  | setCurrentBooking b => BookingsState.mk ub (Some b) ld sb er
  | clearCurrentBooking => BookingsState.mk ub None ld sb er
  | clearUserBookings => BookingsState.mk [] None ld sb er
  end.

(** Every slice sees every action and ignores those of the other slice. *)
Definition rootReducer (s : RootState) (a : Action) : RootState :=
  match a with
  | ReviewsA a => mkRoot (reviewsReducer (reviews s) a) (bookings s)
  | BookingsA a => mkRoot (reviews s) (bookingsReducer (bookings s) a)
  end.

(** ** Exceptions, remote calls and the world *)

Inductive Exn :=
| ReviewsError (message : string) (statusCode : option Z)
| BookingsError (message : string) (statusCode : option Z)
| OtherError (message : string).

(** What [handleApiError] makes of a failed request. *)
Record ApiError := mkApiError { statusCode : option Z; message : string }.

Inductive Call :=
| FetchTourReviews (tourId : string)
| FetchUserReviews
| PostReview (data : CreateReviewData.t)
| PatchReview (reviewId : string) (data : UpdateReviewData.t)
| DeleteReview (reviewId : string)
| FetchUserBookings
| PatchBookingStatus (bookingId : string) (status : string).

(** The remote API is an external collaborator: its answer to a call may
    depend on the call and on the moment it is made (the number of calls
    issued before it), and is otherwise arbitrary. *)
Record Backend := mkBackend {
  on_fetchTourReviews : nat -> string -> ApiError + list Review.t;
  on_fetchUserReviews : nat -> ApiError + list Review.t;
  on_createReview : nat -> CreateReviewData.t -> ApiError + Review.t;
  on_updateReview : nat -> string -> UpdateReviewData.t -> ApiError + Review.t;
  on_deleteReview : nat -> string -> ApiError + unit;
  on_fetchUserBookings : nat -> ApiError + list Booking.t;
  on_updateBookingStatus : nat -> string -> string -> ApiError + unit
}.

Record World := mkWorld {
  store : RootState;
  (** status of each booking in the remote store, by booking id *)
  remoteBookings : gmap string string;
  (** remote calls issued so far, oldest first, with their outcome *)
  calls : list (Call * bool)
}.

(** ** The monad of asynchronous hook code *)

Definition M (A : Type) : Type := World -> (Exn + A) * World.

Definition ret {A} (a : A) : M A := fun w => (inr a, w).

Definition bind {A B} (m : M A) (k : A -> M B) : M B :=
  fun w => match m w with
           | (inr a, w') => k a w'
           | (inl e, w') => (inl e, w')
           end.

Definition throw {A} (e : Exn) : M A := fun w => (inl e, w).

Definition try_catch {A} (m : M A) (handler : Exn -> M A) : M A :=
  fun w => match m w with
           | (inr a, w') => (inr a, w')
           | (inl e, w') => handler e w'
           end.

Definition dispatch (a : Action) : M unit :=
  fun w => (inr tt, mkWorld (rootReducer (store w) a) (remoteBookings w) (calls w)).

Declare Scope hook_scope.
Delimit Scope hook_scope with hook.
Notation "'let*' x ':=' m 'in' k" := (bind m (fun x => k))
  (at level 10, x name, m at level 100, k at level 200) : hook_scope.
Notation "m ;; k" := (bind m (fun _ => k))
  (at level 100, k at level 200, right associativity) : hook_scope.
Notation "'try' m 'catch' x '=>' h" := (try_catch m (fun x => h))
  (at level 10, x name, m at level 200, h at level 200) : hook_scope.

Local Open Scope hook_scope.

(** What a hook operation resolves to: [{ success, error?, review? }]. *)
Module Result.
Record t := mk {
  success : bool;
  error : option string;
  review : option Review.t
}.
Definition ok : t := mk true None None.
Definition okWith (r : Review.t) : t := mk true None (Some r).
Definition failure (errorMessage : string) : t := mk false (Some errorMessage) None.
End Result.

Definition record (c : Call) (succeeded : bool) (w : World) : World :=
  mkWorld (store w) (remoteBookings w) (calls w ++ [(c, succeeded)]).

(** One round trip: the call is logged with its outcome; a failure is
    thrown after [wrap] turned it into the service's own error class. *)
Definition request {A} (c : Call) (reply : nat -> ApiError + A)
    (wrap : ApiError -> Exn) : M A :=
  fun w => match reply (length (calls w)) with
           | inr a => (inr a, record c true w)
           | inl e => (inl (wrap e), record c false w)
           end.

(** ** services/reviewsService.ts *)

Module reviewsService.
Section service.
Variable backend : Backend.

Definition transformReviewsError (baseError : ApiError) : Exn :=
  if bool_decide (statusCode baseError = Some 409%Z)
  then ReviewsError "You have already reviewed this tour" (Some 409%Z)
  else ReviewsError (message baseError) (statusCode baseError).

Definition fetchTourReviews (tourId : string) : M (list Review.t) :=
  request (FetchTourReviews tourId)
          (fun n => on_fetchTourReviews backend n tourId) transformReviewsError.

Definition fetchUserReviews : M (list Review.t) :=
  request FetchUserReviews (on_fetchUserReviews backend) transformReviewsError.

Definition createReview (reviewData : CreateReviewData.t) : M Review.t :=
  request (PostReview reviewData)
          (fun n => on_createReview backend n reviewData) transformReviewsError.

Definition updateReview (reviewId : string) (updateData : UpdateReviewData.t)
  : M Review.t :=
  request (PatchReview reviewId updateData)
          (fun n => on_updateReview backend n reviewId updateData)
          transformReviewsError.

Definition deleteReview (reviewId : string) : M unit :=
  request (DeleteReview reviewId)
          (fun n => on_deleteReview backend n reviewId) transformReviewsError.

(** [tourId || fallback] and [tourId ? ... : ...] for an optional string:
    [undefined] and the empty string are falsy. *)
Definition truthyString (s : option string) : bool :=
  match s with
  | Some s => negb (bool_decide (s = ""))
  | None => false
  end.

Definition generateMockReviews (tourId : option string) : list Review.t :=
  let tourOr fallback := if truthyString tourId then default "" tourId else fallback in
  let mockReviews :=
    [ Review.mk "1"
        "Amazing tour! The guides were very knowledgeable and the scenery was breathtaking. Highly recommend!"
        5 "2024-01-15T10:00:00Z" (Some "2024-01-15T10:00:00Z") (tourOr "1")
        (ReviewUser.mk "user1" "John Doe" "john-doe.jpg");
      Review.mk "2"
        "Great experience overall. The tour was well organized and the locations were stunning."
        4 "2024-01-10T14:30:00Z" None (tourOr "2")
        (ReviewUser.mk "user2" "Sarah Smith" "sarah-smith.jpg");
      Review.mk "3"
        "Good value for money. The tour covered all major attractions and the guide was friendly."
        4 "2024-01-08T09:15:00Z" None (tourOr "3")
        (ReviewUser.mk "user3" "Mike Johnson" "mike-johnson.jpg") ] in
  if truthyString tourId
  then List.filter (fun review => bool_decide (Some (Review.tour review) = tourId))
                   mockReviews
  else mockReviews.

(** JavaScript truthiness. *)
Definition truthy (v : JSValue) : bool :=
  match v with
  | JUndefined | JNull => false
  | JBool b => b
  | JNumber n => negb (Z.eqb n 0)
  | JString s => negb (bool_decide (s = ""))
  | JArray _ | JObject _ => true
  end.

(** [a || b] *)
Definition orElse (a b : JSValue) : JSValue := if truthy a then a else b.

(** [v.key] for the keys the transformer reads, none of which is a property
    of a string, number, boolean or array: reading from [undefined] or
    [null] throws a TypeError, reading from an object without the key or
    from another value gives [undefined]. *)
Definition getProp (v : JSValue) (key : string) : Exn + JSValue :=
  match v with
  | JUndefined | JNull =>
      inl (OtherError "TypeError: Cannot read properties of undefined")
  | JObject fields => inr (default JUndefined (fields !! key))
  | _ => inr JUndefined
  end.

(** [v == null] *)
Definition nullish (v : JSValue) : bool :=
  match v with
  | JUndefined | JNull => true
  | _ => false
  end.

(** What [v.key] evaluates to when it does not throw. *)
Definition field (v : JSValue) (key : string) : JSValue :=
  match getProp v key with
  | inr x => x
  | inl _ => JUndefined
  end.

(** The object literal [transformReview] returns, with [user] flattened. *)
Record Transformed := mkTransformed {
  t_id : JSValue;
  t_review : JSValue;
  t_rating : JSValue;
  t_createdAt : JSValue;
  t_updatedAt : JSValue;
  t_tour : JSValue;
  t_user_id : JSValue;
  t_user_name : JSValue;
  t_user_photo : JSValue
}.

Definition andThen {A B} (x : Exn + A) (k : A -> Exn + B) : Exn + B :=
  match x with
  | inr a => k a
  | inl e => inl e
  end.

(** The properties of the literal are evaluated in the order written.
    Reading a property has no effect, and the right operand of [||] can
    only throw when the left one already has, so both are read up front. *)
Definition transformReview (review : JSValue) : Exn + Transformed :=
  andThen (getProp review "_id") (fun _id =>
  andThen (getProp review "id") (fun id =>
  andThen (getProp review "review") (fun text =>
  andThen (getProp review "rating") (fun rating =>
  andThen (getProp review "createdAt") (fun createdAt =>
  andThen (getProp review "updatedAt") (fun updatedAt =>
  andThen (getProp review "tour") (fun tour =>
  andThen (getProp tour "_id") (fun tour_id =>
  andThen (getProp review "user") (fun user =>
  andThen (getProp user "_id") (fun user_id =>
  andThen (getProp user "id") (fun userId =>
  andThen (getProp user "name") (fun name =>
  andThen (getProp user "photo") (fun photo =>
  inr (mkTransformed (orElse _id id) text rating createdAt updatedAt
         (orElse tour_id tour) (orElse user_id userId) name photo)))))))))))))).

(** A transformed review read back as a value of the wire format. *)
Definition asValue (t : Transformed) : JSValue :=
  JObject (list_to_map
    [ ("id", t_id t); ("review", t_review t); ("rating", t_rating t);
      ("createdAt", t_createdAt t); ("updatedAt", t_updatedAt t);
      ("tour", t_tour t);
      ("user", JObject (list_to_map
         [ ("id", t_user_id t); ("name", t_user_name t);
           ("photo", t_user_photo t) ])) ]).
End service.
End reviewsService.

(** ** services/bookingsService *)

Module bookingsService.
Section service.
Variable backend : Backend.

(** Modelled from the spec: services/bookingsService is not among the
    sources.  A failed request is thrown as the service's own error class,
    [BookingsError], which [useBookings] tests for. *)
Definition transformBookingsError (baseError : ApiError) : Exn :=
  BookingsError (message baseError) (statusCode baseError).

(** Modelled from the spec: services/bookingsService is not among the
    sources.  [fetchUserBookings ()] is one round trip that returns the
    bookings of the current user or fails. *)
Definition fetchUserBookings : M (list Booking.t) :=
  request FetchUserBookings (on_fetchUserBookings backend) transformBookingsError.

(** Modelled from the spec: services/bookingsService is not among the
    sources.  [updateBookingStatus(bookingId, status)] is one round trip
    that persists the status in the remote store; it returns nothing on
    success, fails with a not-found error when the remote store has no
    such booking, and fails when the remote store rejects the request. *)
Definition updateBookingStatus (bookingId status : string) : M unit :=
  fun w =>
    let c := PatchBookingStatus bookingId status in
    match remoteBookings w !! bookingId with
    | None => (inl (BookingsError "No booking found with that ID" (Some 404%Z)),
               record c false w)
    | Some _ =>
        match on_updateBookingStatus backend (length (calls w)) bookingId status with
        | inr _ =>
            (inr tt, mkWorld (store w) (<[bookingId := status]> (remoteBookings w))
                             (calls w ++ [(c, true)]))
        | inl e => (inl (transformBookingsError e), record c false w)
        end
    end.
End service.
End bookingsService.

(** ** Reading a plain object

    [reviewsState.tourReviews] is a plain object used as a map from tour
    ids to lists of reviews.  [tourReviews[tourId]] is a property read: it
    gives the entry the object owns at that key and, when it owns none,
    the member of that name which every plain object inherits from
    [Object.prototype].  The [gmap] of the slice holds the own entries. *)

(** What a plain object inherits: a function, with its [length], or the
    prototype object itself, which has no [length]. *)
Inductive Member :=
| MFunction (len : nat)
| Prototype.

Definition objectPrototypeMembers : gmap string Member :=
  list_to_map
    [ ("constructor", MFunction 1);
      ("__defineGetter__", MFunction 2);
      ("__defineSetter__", MFunction 2);
      ("hasOwnProperty", MFunction 1);
      ("__lookupGetter__", MFunction 1);
      ("__lookupSetter__", MFunction 1);
      ("isPrototypeOf", MFunction 1);
      ("propertyIsEnumerable", MFunction 1);
      ("toString", MFunction 0);
      ("valueOf", MFunction 0);
      ("toLocaleString", MFunction 0);
      ("__proto__", Prototype) ].

(** [Object.prototype[key]] *)
Definition objectPrototype (key : string) : option Member :=
  objectPrototypeMembers !! key.

(** The value of [tourReviews[tourId]] when it is not [undefined]. *)
Inductive Cached :=
| Reviews (rs : list Review.t)
| Inherited (member : Member).

(** [tourReviews[tourId]]; [None] is [undefined]. *)
Definition readTourReviews (tourReviews : gmap string (list Review.t))
    (tourId : string) : option Cached :=
  match tourReviews !! tourId with
  | Some rs => Some (Reviews rs)
  | None =>
      match objectPrototype tourId with
      | Some member => Some (Inherited member)
      | None => None
      end
  end.

(** ** hooks/useReviews *)

Module useReviews.
Section hook.
Variable backend : Backend.
(** [useAppSelector (state => state.reviews)] and
    [useAppSelector (state => state.bookings)] at render time. *)
Variable reviewsState : ReviewsState.t.
Variable bookingsState : BookingsState.t.

Definition findBookingByTourId (tourId : string) : option Booking.t :=
  List.find (fun booking => bool_decide (Booking.tourId booking = tourId))
            (BookingsState.userBookings bookingsState).

Definition loadTourReviews (tourId : string) : M Result.t :=
  if match readTourReviews (ReviewsState.tourReviews reviewsState) tourId with
     | Some (Reviews rs) => (0 <? length rs)%nat
     | Some (Inherited (MFunction len)) => (0 <? len)%nat
     | Some (Inherited Prototype) => false
     | None => false
     end
  then ret Result.ok
  else
    dispatch (setLoading true);;
    dispatch clearError;;
    try (let* reviews := reviewsService.fetchTourReviews backend tourId in
         dispatch (setTourReviews tourId reviews);;
         dispatch (setLoading false);;
         ret Result.ok)
    catch error =>
      (let errorMessage :=
         match error with
         | ReviewsError message _ => message
         | _ => "Failed to load reviews. Please try again."
         end in
       dispatch (setError errorMessage);;
       dispatch (setLoading false);;
       ret (Result.failure errorMessage)).

Definition loadUserReviews : M Result.t :=
  dispatch (setLoading true);;
  dispatch clearError;;
  try (let* reviews := reviewsService.fetchUserReviews backend in
       dispatch (setUserReviews reviews);;
       dispatch (setLoading false);;
       ret Result.ok)
  catch error =>
    (let errorMessage :=
       match error with
       | ReviewsError message _ => message
       | _ => "Failed to load your reviews. Please try again."
       end in
     dispatch (setError errorMessage);;
     dispatch (setLoading false);;
     ret (Result.failure errorMessage)).

Definition createReview (reviewData : CreateReviewData.t) : M Result.t :=
  dispatch (setSubmitting true);;
  dispatch clearError;;
  try (let* newReview := reviewsService.createReview backend reviewData in
       dispatch (addUserReview newReview);;
       match findBookingByTourId (CreateReviewData.tour reviewData) with
       | Some booking =>
           if bool_decide (Booking.status booking = "pending-review")
           then
             dispatch (updateUserBookingStatus (Booking.id booking) "reviewed");;
             try (bookingsService.updateBookingStatus backend
                    (Booking.id booking) "reviewed")
             catch bookingError => (ret tt)
           else ret tt
       | None => ret tt
       end;;
       match readTourReviews (ReviewsState.tourReviews reviewsState)
               (CreateReviewData.tour reviewData) with
       | Some _ =>
           dispatch (clearTourReviews (CreateReviewData.tour reviewData));;
           loadTourReviews (CreateReviewData.tour reviewData);;
           ret tt
       | None => ret tt
       end;;
       dispatch (setSubmitting false);;
       ret (Result.okWith newReview))
  catch error =>
    (let errorMessage :=
       match error with
       | ReviewsError message _ => message
       | _ => "Failed to create review. Please try again."
       end in
     dispatch (setError errorMessage);;
     dispatch (setSubmitting false);;
     ret (Result.failure errorMessage)).

Definition updateReview (reviewId : string) (updateData : UpdateReviewData.t)
  : M Result.t :=
  dispatch (setSubmitting true);;
  dispatch clearError;;
  try (let* updatedReview :=
         reviewsService.updateReview backend reviewId updateData in
       dispatch (updateUserReview updatedReview);;
       match ReviewsState.currentReview reviewsState with
       | Some current =>
           if bool_decide (Review.id current = reviewId)
           then dispatch (setCurrentReview updatedReview)
           else ret tt
       | None => ret tt
       end;;
       match readTourReviews (ReviewsState.tourReviews reviewsState)
               (Review.tour updatedReview) with
       | Some _ =>
           dispatch (clearTourReviews (Review.tour updatedReview));;
           loadTourReviews (Review.tour updatedReview);;
           ret tt
       | None => ret tt
       end;;
       dispatch (setSubmitting false);;
       ret (Result.okWith updatedReview))
  catch error =>
    (let errorMessage :=
       match error with
       | ReviewsError message _ => message
       | _ => "Failed to update review. Please try again."
       end in
     dispatch (setError errorMessage);;
     dispatch (setSubmitting false);;
     ret (Result.failure errorMessage)).

Definition deleteReview (reviewId : string) : M Result.t :=
  dispatch (setSubmitting true);;
  dispatch clearError;;
  try (match List.find (fun r => bool_decide (Review.id r = reviewId))
                       (ReviewsState.userReviews reviewsState) with
       | None => throw (ReviewsError "Review not found in local state" None)
       | Some reviewToDelete =>
           reviewsService.deleteReview backend reviewId;;
           dispatch (removeUserReview reviewId);;
           match findBookingByTourId (Review.tour reviewToDelete) with
           | Some booking =>
               if bool_decide (Booking.status booking = "reviewed")
               then
                 dispatch (updateUserBookingStatus (Booking.id booking)
                             "pending-review");;
                 try (bookingsService.updateBookingStatus backend
                        (Booking.id booking) "pending-review")
                 catch bookingError => (ret tt)
               else ret tt
           | None => ret tt
           end;;
           match ReviewsState.currentReview reviewsState with
           | Some current =>
               if bool_decide (Review.id current = reviewId)
               then dispatch clearCurrentReview
               else ret tt
           | None => ret tt
           end;;
           match readTourReviews (ReviewsState.tourReviews reviewsState)
                   (Review.tour reviewToDelete) with
           | Some _ =>
               dispatch (clearTourReviews (Review.tour reviewToDelete));;
               loadTourReviews (Review.tour reviewToDelete);;
               ret tt
           | None => ret tt
           end;;
           dispatch (setSubmitting false);;
           ret Result.ok
       end)
  catch error =>
    (let errorMessage :=
       match error with
       | ReviewsError message _ => message
       | _ => "Failed to delete review. Please try again."
       end in
     dispatch (setError errorMessage);;
     dispatch (setSubmitting false);;
     ret (Result.failure errorMessage)).

Definition refreshTourReviews (tourId : string) : M Result.t :=
  dispatch (clearTourReviews tourId);;
  loadTourReviews tourId.

Definition hasUserReviewedTour (tourId : string) : bool :=
  existsb (fun review => bool_decide (Review.tour review = tourId))
          (ReviewsState.userReviews reviewsState).

(** [useAppSelector (state => state.tours)]: the hook reads [allTours]. *)
Variable allTours : list Tour.t.

Definition refreshUserReviews : M Result.t :=
  dispatch (setUserReviews []);;
  loadUserReviews.

Definition getTourReviews (tourId : string) : Cached :=
  match readTourReviews (ReviewsState.tourReviews reviewsState) tourId with
  | Some cached => cached
  | None => Reviews []
  end.

Definition getUserReviewsWithTourInfo : list ReviewWithTourInfo.t :=
  map (fun review =>
         match List.find (fun tour => bool_decide (Tour.id tour = Review.tour review))
                         allTours with
         | Some tourInfo =>
             ReviewWithTourInfo.mk review
               (TourInfo.mk (Tour.id tourInfo) (Tour.name tourInfo)
                            (Tour.slug tourInfo) (Tour.imageCover tourInfo))
         | None =>
             ReviewWithTourInfo.mk review
               (TourInfo.mk (Review.tour review) "Unknown Tour" ""
                            "default-tour.jpg")
         end)
      (ReviewsState.userReviews reviewsState).

Definition clearReviewsError : M unit := dispatch clearError.

Definition selectReview (review : Review.t) : M unit :=
  dispatch (setCurrentReview review).

Definition clearSelectedReview : M unit := dispatch clearCurrentReview.
End hook.
End useReviews.

(** ** components/profile/reviews/ProfileReviews.tsx

    The handlers of the component, over its two [useState] flags.  They
    use the callbacks and the [currentReview] that [useReviews] returned
    at the same render. *)

Module ProfileReviews.

(** The fields of [ReviewSubmitData] that [handleEditSubmit] reads. *)
Record ReviewSubmitData := mkSubmit {
  reviewId : option string;
  rating : Z;
  review : string
}.

Record Modals := mkModals {
  isEditingModalOpen : bool;
  isDeleteModalOpen : bool
}.

Section component.
Variable backend : Backend.
Variable reviewsState : ReviewsState.t.
Variable bookingsState : BookingsState.t.
Variable allTours : list Tour.t.
(** [new Date ().toISOString ()] at the time of the edit *)
Variable now : string.

Definition handleEditReview (review : Review.t) (modals : Modals) : M Modals :=
  let reviewForEdit :=
    Review.mk (Review.id review) (Review.review review) (Review.rating review)
              (Review.createdAt review) (Review.updatedAt review)
              (Review.tour review) (Review.user review) in
  useReviews.selectReview reviewForEdit;;
  ret (mkModals true (isDeleteModalOpen modals)).

Definition handleDeleteReview (reviewId : string) (modals : Modals) : M Modals :=
  match List.find
          (fun r => bool_decide (Review.id (ReviewWithTourInfo.review r) = reviewId))
          (useReviews.getUserReviewsWithTourInfo reviewsState allTours) with
  | Some r =>
      let review := ReviewWithTourInfo.review r in
      useReviews.selectReview
        (Review.mk (Review.id review) (Review.review review) (Review.rating review)
                   (Review.createdAt review) (Review.updatedAt review)
                   (Review.tour review) (Review.user review));;
      ret (mkModals (isEditingModalOpen modals) true)
  | None => ret modals
  end.

Definition handleEditSubmit (data : ReviewSubmitData) (modals : Modals) : M Modals :=
  match ReviewsState.currentReview reviewsState with
  | Some currentReview =>
      if reviewsService.truthyString (reviewId data)
      then
        let* result :=
          useReviews.updateReview backend reviewsState (default "" (reviewId data))
            (UpdateReviewData.mk (Some (rating data)) (Some (review data)) (Some now)) in
        if Result.success result
        then
          useReviews.clearSelectedReview;;
          ret (mkModals false (isDeleteModalOpen modals))
        else ret modals
      else ret modals
  | None => ret modals
  end.

Definition handleEditCancel (modals : Modals) : M Modals :=
  useReviews.clearSelectedReview;;
  ret (mkModals false (isDeleteModalOpen modals)).

Definition confirmDeleteReview (modals : Modals) : M Modals :=
  match ReviewsState.currentReview reviewsState with
  | Some currentReview =>
      let* result :=
        useReviews.deleteReview backend reviewsState bookingsState
          (Review.id currentReview) in
      if Result.success result
      then
        useReviews.clearSelectedReview;;
        ret (mkModals (isEditingModalOpen modals) false)
      else ret modals
  | None => ret modals
  end.

Definition cancelDeleteReview (modals : Modals) : M Modals :=
  useReviews.clearSelectedReview;;
  ret (mkModals (isEditingModalOpen modals) false).
End component.
End ProfileReviews.

(** ** hooks/useBookings.ts *)

Module useBookings.
Section hook.
Variable backend : Backend.
(** [useAppSelector (state => state.bookings)] at render time. *)
Variable bookingsState : BookingsState.t.

Definition loadUserBookings : M Result.t :=
  dispatch (setBookingsLoading true);;
  dispatch clearBookingsError;;
  try (let* bookings := bookingsService.fetchUserBookings backend in
       dispatch (setUserBookings bookings);;
       dispatch (setBookingsLoading false);;
       ret Result.ok)
  catch error =>
    (let errorMessage :=
       match error with
       | BookingsError message _ => message
       | _ => "Failed to load your bookings. Please try again."
       end in
     dispatch (setBookingsError errorMessage);;
     dispatch (setBookingsLoading false);;
     ret (Result.failure errorMessage)).

Definition updateBookingStatus (bookingId status : string) : M Result.t :=
  dispatch (setBookingsSubmitting true);;
  dispatch clearBookingsError;;
  try (bookingsService.updateBookingStatus backend bookingId status;;
       dispatch (updateUserBookingStatus bookingId status);;
       dispatch (setBookingsSubmitting false);;
       ret Result.ok)
  catch error =>
    (let errorMessage :=
       match error with
       | BookingsError message _ => message
       | _ => "Failed to update booking status. Please try again."
       end in
     dispatch (setBookingsError errorMessage);;
     dispatch (setBookingsSubmitting false);;
     ret (Result.failure errorMessage)).

Definition findBookingByTourId (tourId : string) : option Booking.t :=
  List.find (fun booking => bool_decide (Booking.tourId booking = tourId))
            (BookingsState.userBookings bookingsState).

Definition getPendingReviewBookings : list Booking.t :=
  List.filter (fun booking => bool_decide (Booking.status booking = "pending-review"))
              (BookingsState.userBookings bookingsState).

Definition markBookingAsReviewed (tourId : string) : M Result.t :=
  match findBookingByTourId tourId with
  | None => ret (Result.failure "Booking not found")
  | Some booking =>
      if negb (bool_decide (Booking.status booking = "pending-review"))
      then ret (Result.failure "Booking is not pending review")
      else updateBookingStatus (Booking.id booking) "reviewed"
  end.

Definition markBookingAsPendingReview (tourId : string) : M Result.t :=
  match findBookingByTourId tourId with
  | None => ret (Result.failure "Booking not found")
  | Some booking =>
      if negb (bool_decide (Booking.status booking = "reviewed"))
      then ret (Result.failure "Booking is not reviewed")
      else updateBookingStatus (Booking.id booking) "pending-review"
  end.

Definition getTourBookingStatus (tourId : string) : option string :=
  match findBookingByTourId tourId with
  | Some booking => Some (Booking.status booking)
  | None => None
  end.
End hook.
End useBookings.

(** ** Calling a hook operation from a fresh render

    A component calls the callbacks of its latest render, whose selected
    slices are those of the store at that moment. *)

Definition createReview (backend : Backend) (reviewData : CreateReviewData.t) : M Result.t :=
  fun w => useReviews.createReview backend (reviews (store w)) (bookings (store w))
             reviewData w.

Definition updateReview (backend : Backend) (reviewId : string)
    (updateData : UpdateReviewData.t) : M Result.t :=
  fun w => useReviews.updateReview backend (reviews (store w)) reviewId updateData w.

Definition deleteReview (backend : Backend) (reviewId : string) : M Result.t :=
  fun w => useReviews.deleteReview backend (reviews (store w)) (bookings (store w))
             reviewId w.

Definition loadTourReviews (backend : Backend) (tourId : string) : M Result.t :=
  fun w => useReviews.loadTourReviews backend (reviews (store w)) tourId w.

Definition loadUserReviews (backend : Backend) : M Result.t :=
  useReviews.loadUserReviews backend.

Definition loadUserBookings (backend : Backend) : M Result.t :=
  useBookings.loadUserBookings backend.

Definition markBookingAsReviewed (backend : Backend) (tourId : string) : M Result.t :=
  fun w => useBookings.markBookingAsReviewed backend (bookings (store w)) tourId w.

Definition markBookingAsPendingReview (backend : Backend) (tourId : string)
  : M Result.t :=
  fun w => useBookings.markBookingAsPendingReview backend (bookings (store w)) tourId w.

Definition findBookingByTourId (w : World) (tourId : string) : option Booking.t :=
  useBookings.findBookingByTourId (bookings (store w)) tourId.

(** The remote calls issued between [w] and a later world [w']. *)
Definition issued (w w' : World) : list (Call * bool) :=
  drop (length (calls w)) (calls w').

Definition isBookingWrite (c : Call * bool) : bool :=
  match fst c with
  | PatchBookingStatus _ _ => true
  | _ => false
  end.

(** The booking-status writes among them. *)
Definition bookingWrites (w w' : World) : list (Call * bool) :=
  List.filter isBookingWrite (issued w w').

(** The caches proper: reviews by tour, the user's reviews, the selected
    review, and the whole bookings slice. *)
Definition sameCaches (w w' : World) : Prop :=
  ReviewsState.tourReviews (reviews (store w')) =
    ReviewsState.tourReviews (reviews (store w)) /\
  ReviewsState.userReviews (reviews (store w')) =
    ReviewsState.userReviews (reviews (store w)) /\
  ReviewsState.currentReview (reviews (store w')) =
    ReviewsState.currentReview (reviews (store w)) /\
  bookings (store w') = bookings (store w).

(** No booking-status write, neither to the cache nor to the remote store. *)
Definition noBookingWrite (w w' : World) : Prop :=
  bookings (store w') = bookings (store w) /\
  remoteBookings w' = remoteBookings w /\
  bookingWrites w w' = [].

(** The uniform result shape: an error message exactly on failure. *)
Definition structured (res : Result.t) : Prop :=
  if Result.success res then Result.error res = None
  else is_Some (Result.error res).

Definition userReview (w : World) (reviewId : string) : option Review.t :=
  List.find (fun r => bool_decide (Review.id r = reviewId))
            (ReviewsState.userReviews (reviews (store w))).

(** ** Sample data *)

Module Sample.
Definition b1 : Booking.t := Booking.mk "b1" "t1" "pending-review".
Definition alice : ReviewUser.t := ReviewUser.mk "u1" "Alice" "alice.jpg".
Definition r1 : Review.t :=
  Review.mk "r1" "Great!" 5 "2024-01-15T10:00:00Z" None "t1" alice.
Definition data1 : CreateReviewData.t := CreateReviewData.mk "t1" 5 "Great!".

Definition emptyReviews : ReviewsState.t :=
  ReviewsState.mk ∅ [] None false false None.
Definition bookingsOf (bs : list Booking.t) : BookingsState.t :=
  BookingsState.mk bs None false false None.

Definition unavailable : ApiError := mkApiError (Some 503%Z) "Service unavailable".

(** A backend that answers every request. *)
Definition healthy : Backend :=
  mkBackend (fun _ _ => inr [r1]) (fun _ => inr [r1]) (fun _ _ => inr r1)
            (fun _ _ _ => inr r1) (fun _ _ => inr tt) (fun _ => inr [b1])
            (fun _ _ _ => inr tt).

(** A backend whose booking-status endpoint is down. *)
Definition bookingsDown : Backend :=
  mkBackend (fun _ _ => inr [r1]) (fun _ => inr [r1]) (fun _ _ => inr r1)
            (fun _ _ _ => inr r1) (fun _ _ => inr tt) (fun _ => inr [b1])
            (fun _ _ _ => inl unavailable).

(** A backend that is down altogether. *)
Definition down : Backend :=
  mkBackend (fun _ _ => inl unavailable) (fun _ => inl unavailable)
            (fun _ _ => inl unavailable) (fun _ _ _ => inl unavailable)
            (fun _ _ => inl unavailable) (fun _ => inl unavailable)
            (fun _ _ _ => inl unavailable).

(** One booking for tour t1 awaiting its review, locally and remotely. *)
Definition pending : World :=
  mkWorld (mkRoot emptyReviews (bookingsOf [b1]))
          {[ "b1" := "pending-review" ]} [].

(** The same booking once reviewed by [r1]. *)
Definition reviewed : World :=
  mkWorld (mkRoot (ReviewsState.mk ∅ [r1] None false false None)
                  (bookingsOf [withStatus "reviewed" b1]))
          {[ "b1" := "reviewed" ]} [].

(** No booking at all; the user's review [r1] is cached. *)
Definition unbooked : World :=
  mkWorld (mkRoot (ReviewsState.mk ∅ [r1] None false false None) (bookingsOf []))
          ∅ [].

(** The reviews of tour t1 are cached. *)
Definition warm : World :=
  mkWorld (mkRoot (ReviewsState.mk {[ "t1" := [r1] ]} [] None false false None)
                  (bookingsOf [b1]))
          ∅ [].
End Sample.

(** ** More operations called from a fresh render *)

Definition refreshTourReviews (backend : Backend) (tourId : string) : M Result.t :=
  fun w => useReviews.refreshTourReviews backend (reviews (store w)) tourId w.

Definition refreshUserReviews (backend : Backend) : M Result.t :=
  useReviews.refreshUserReviews backend.

Definition updateBookingStatus (backend : Backend) (bookingId status : string)
  : M Result.t :=
  useBookings.updateBookingStatus backend bookingId status.

Definition getTourReviews (w : World) (tourId : string) : Cached :=
  useReviews.getTourReviews (reviews (store w)) tourId.

Definition hasUserReviewedTour (w : World) (tourId : string) : bool :=
  useReviews.hasUserReviewedTour (reviews (store w)) tourId.

Definition getUserReviewsWithTourInfo (w : World) (allTours : list Tour.t)
  : list ReviewWithTourInfo.t :=
  useReviews.getUserReviewsWithTourInfo (reviews (store w)) allTours.

Definition getPendingReviewBookings (w : World) : list Booking.t :=
  useBookings.getPendingReviewBookings (bookings (store w)).

Definition getTourBookingStatus (w : World) (tourId : string) : option string :=
  useBookings.getTourBookingStatus (bookings (store w)) tourId.

Definition confirmDeleteReview (backend : Backend) (modals : ProfileReviews.Modals)
  : M ProfileReviews.Modals :=
  fun w => ProfileReviews.confirmDeleteReview backend (reviews (store w))
             (bookings (store w)) modals w.

Definition handleEditSubmit (backend : Backend) (now : string)
    (data : ProfileReviews.ReviewSubmitData) (modals : ProfileReviews.Modals)
  : M ProfileReviews.Modals :=
  fun w => ProfileReviews.handleEditSubmit backend (reviews (store w)) now data
             modals w.

Definition handleDeleteReview (allTours : list Tour.t) (reviewId : string)
    (modals : ProfileReviews.Modals) : M ProfileReviews.Modals :=
  fun w => ProfileReviews.handleDeleteReview (reviews (store w)) allTours reviewId
             modals w.

(** The message a caller of [reviewsService] sees for a failed request:
    [transformReviewsError (e).message]. *)
Definition serviceMessage (e : ApiError) : string :=
  match reviewsService.transformReviewsError e with
  | ReviewsError message _ | BookingsError message _ | OtherError message => message
  end.

(** ** Proof automation *)

Ltac hook_unfold :=
  unfold createReview, updateReview, deleteReview, loadTourReviews,
    loadUserReviews, loadUserBookings, markBookingAsReviewed,
    markBookingAsPendingReview, findBookingByTourId, userReview,
    useReviews.createReview, useReviews.updateReview, useReviews.deleteReview,
    useReviews.loadTourReviews,
    useReviews.loadUserReviews, useReviews.findBookingByTourId,
    useBookings.loadUserBookings, useBookings.markBookingAsReviewed,
    useBookings.markBookingAsPendingReview, useBookings.updateBookingStatus,
    useBookings.findBookingByTourId,
    reviewsService.createReview, reviewsService.updateReview,
    reviewsService.deleteReview, reviewsService.fetchTourReviews,
    reviewsService.fetchUserReviews, bookingsService.fetchUserBookings,
    bookingsService.updateBookingStatus,
    request, bind, try_catch, ret, throw, dispatch, record in *.

Ltac hook_simpl :=
  cbn [store calls remoteBookings reviews bookings rootReducer reviewsReducer
       bookingsReducer fst snd
       ReviewsState.tourReviews ReviewsState.userReviews
       ReviewsState.currentReview ReviewsState.isLoading
       ReviewsState.isSubmitting ReviewsState.error
       BookingsState.userBookings BookingsState.currentBooking
       BookingsState.isLoading BookingsState.isSubmitting BookingsState.error
       Result.success Result.error Result.review Result.ok Result.okWith
       Result.failure Nat.ltb Nat.leb length negb] in *.

(** One step of symbolic execution: case on the next answer of the
    backend, cache lookup or guard that the goal is stuck on. *)
Ltac hook_step :=
  match goal with
  | |- context [on_fetchTourReviews ?b ?n ?t] =>
      destruct (on_fetchTourReviews b n t) eqn:?
  | |- context [on_fetchUserReviews ?b ?n] =>
      destruct (on_fetchUserReviews b n) eqn:?
  | |- context [on_createReview ?b ?n ?d] =>
      destruct (on_createReview b n d) eqn:?
  | |- context [on_updateReview ?b ?n ?i ?d] =>
      destruct (on_updateReview b n i d) eqn:?
  | |- context [on_deleteReview ?b ?n ?i] =>
      destruct (on_deleteReview b n i) eqn:?
  | |- context [on_fetchUserBookings ?b ?n] =>
      destruct (on_fetchUserBookings b n) eqn:?
  | |- context [on_updateBookingStatus ?b ?n ?i ?s] =>
      destruct (on_updateBookingStatus b n i s) eqn:?
  | |- context [match ?x with Some _ => _ | None => _ end] =>
      destruct x eqn:?
  | |- context [match ?x with Reviews _ => _ | Inherited _ => _ end] =>
      destruct x
  | |- context [match ?x with MFunction _ => _ | Prototype => _ end] =>
      destruct x
  | |- context [match ?n with 0 => _ | S _ => _ end] =>
      is_var n; destruct n
  | |- context [match length ?l with 0 => _ | S _ => _ end] =>
      destruct l
  | |- context [if bool_decide ?P then _ else _] =>
      destruct (bool_decide P) eqn:?
  end; hook_simpl.

Ltac issued_norm :=
  unfold noBookingWrite, bookingWrites, issued in *; cbn [calls] in *;
  rewrite <- ?app_assoc in *;
  rewrite ?drop_app_length, ?drop_all in *;
  cbn [app List.filter isBookingWrite fst] in *.

Ltac not_issued H :=
  rewrite list_elem_of_In in H; cbn [In] in H; intuition discriminate.

Ltac here_or_further :=
  repeat first [apply list_elem_of_here | apply list_elem_of_further].

Ltac extra_unfold :=
  unfold refreshTourReviews, refreshUserReviews, updateBookingStatus,
    getTourReviews, hasUserReviewedTour, getUserReviewsWithTourInfo,
    getPendingReviewBookings, getTourBookingStatus, confirmDeleteReview,
    handleEditSubmit, handleDeleteReview,
    ProfileReviews.confirmDeleteReview, ProfileReviews.handleEditSubmit,
    ProfileReviews.handleDeleteReview, ProfileReviews.handleEditReview,
    ProfileReviews.handleEditCancel, ProfileReviews.cancelDeleteReview,
    useReviews.refreshTourReviews, useReviews.refreshUserReviews,
    useReviews.getTourReviews, useReviews.hasUserReviewedTour,
    useReviews.selectReview, useReviews.clearSelectedReview,
    useReviews.clearReviewsError,
    useBookings.getPendingReviewBookings, useBookings.getTourBookingStatus in *;
  hook_unfold.

Ltac extra_simpl :=
  cbn [ProfileReviews.isEditingModalOpen ProfileReviews.isDeleteModalOpen
       ProfileReviews.reviewId ProfileReviews.rating ProfileReviews.review
       Review.id Review.tour Booking.id Booking.tourId Booking.status
       withStatus] in *;
  hook_simpl.

(** ** Auxiliary lemmas *)

Lemma issued_app (w w' : World) (l : list (Call * bool)) :
  calls w' = calls w ++ l -> issued w w' = l.
Proof. unfold issued. intros ->. apply drop_app_length. Qed.

Lemma issued_refl (w : World) : issued w w = [].
Proof. unfold issued. apply drop_all. Qed.

(** Updating the status by id keeps the booking found for a tour in place. *)
Lemma find_withStatus (tourId status : string) (booking : Booking.t)
    (bs : list Booking.t) :
  List.find (fun b => bool_decide (Booking.tourId b = tourId)) bs = Some booking ->
  List.find (fun b => bool_decide (Booking.tourId b = tourId))
    (map (fun b => if bool_decide (Booking.id b = Booking.id booking)
                   then withStatus status b else b) bs)
  = Some (withStatus status booking).
Proof.
  induction bs as [|x bs IH]; cbn [List.find map]; [discriminate|].
  destruct (bool_decide (Booking.tourId x = tourId)) eqn:Hx.
  - intros [= ->].
    rewrite (bool_decide_eq_true_2 (Booking.id booking = Booking.id booking))
      by reflexivity.
    cbn [withStatus Booking.tourId]. now rewrite Hx.
  - intros Hfind.
    assert (Booking.tourId
              (if bool_decide (Booking.id x = Booking.id booking)
               then withStatus status x else x) = Booking.tourId x) as ->
      by (destruct (bool_decide (Booking.id x = Booking.id booking)); reflexivity).
    rewrite Hx. now apply IH.
Qed.

(** An own entry is what the property read gives. *)
Lemma readTourReviews_own (tourReviews : gmap string (list Review.t))
    (tourId : string) (rs : list Review.t) :
  tourReviews !! tourId = Some rs ->
  readTourReviews tourReviews tourId = Some (Reviews rs).
Proof. unfold readTourReviews. now intros ->. Qed.

(** Without an own entry, a key that names no inherited member reads as
    [undefined]. *)
Lemma readTourReviews_absent (tourReviews : gmap string (list Review.t))
    (tourId : string) :
  tourReviews !! tourId = None ->
  objectPrototype tourId = None ->
  readTourReviews tourReviews tourId = None.
Proof. unfold readTourReviews. now intros -> ->. Qed.

(** The read at another key is not affected by an entry written at a key. *)
Lemma readTourReviews_insert_ne (tourReviews : gmap string (list Review.t))
    (tourId other : string) (rs : list Review.t) :
  other <> tourId ->
  readTourReviews (<[tourId := rs]> tourReviews) other
  = readTourReviews tourReviews other.
Proof. intros Hne. unfold readTourReviews. now rewrite lookup_insert_ne. Qed.

(** ** Dual write on review creation *)

(** C1, at a concrete input: the booking b1 of tour t1 awaits its review in
    the cache and in the remote store; the review is created, the
    booking-status endpoint is down.  [createReview] reports success and
    the remote booking is still 'pending-review'. *)
Lemma createReview_remote_booking_stays_pending :
  let out := createReview Sample.bookingsDown Sample.data1 Sample.pending in
  findBookingByTourId Sample.pending "t1" = Some Sample.b1 /\
  Booking.status Sample.b1 = "pending-review" /\
  fst out = inr (Result.okWith Sample.r1) /\
  Result.success (Result.okWith Sample.r1) = true /\
  remoteBookings (snd out) !! "b1" = Some "pending-review" /\
  remoteBookings (snd out) !! "b1" <> Some "reviewed".
Proof. vm_compute. repeat split; discriminate. Qed.

(** C1, amended: when the booking found for the tour is 'pending-review'
    and [createReview] returns success, the booking found for the tour in
    the cache is afterwards that booking with status 'reviewed'; the remote
    store holds 'reviewed' for it as well unless the remote booking-status
    update failed. *)
Theorem createReview_marks_booking_reviewed
    (backend : Backend) (w w' : World) (reviewData : CreateReviewData.t)
    (booking : Booking.t) (res : Result.t) :
  findBookingByTourId w (CreateReviewData.tour reviewData) = Some booking ->
  Booking.status booking = "pending-review" ->
  createReview backend reviewData w = (inr res, w') ->
  Result.success res = true ->
  findBookingByTourId w' (CreateReviewData.tour reviewData)
    = Some (withStatus "reviewed" booking) /\
  ((PatchBookingStatus (Booking.id booking) "reviewed", false) ∉ issued w w' ->
   remoteBookings w' !! Booking.id booking = Some "reviewed").
Proof.
  intros Hfind Hstatus Hrun Hok.
  pose proof (find_withStatus _ "reviewed" _ _ Hfind) as Hlocal.
  revert Hrun. hook_unfold. rewrite Hfind, (bool_decide_eq_true_2 _ Hstatus).
  hook_simpl. repeat hook_step.
  all: intros [= <- <-]; try discriminate Hok.
  all: hook_simpl; split; [exact Hlocal | intros Hnot; issued_norm].
  all: try solve [exfalso; apply Hnot; here_or_further].
  all: apply lookup_insert_eq.
Qed.

(** An instance: on a healthy backend the booking b1 ends up 'reviewed'
    in the cache and in the remote store. *)
Lemma createReview_marks_booking_reviewed_witness :
  let out := createReview Sample.healthy Sample.data1 Sample.pending in
  findBookingByTourId (snd out) "t1" = Some (withStatus "reviewed" Sample.b1) /\
  remoteBookings (snd out) !! "b1" = Some "reviewed".
Proof.
  intros out.
  destruct (createReview_marks_booking_reviewed Sample.healthy Sample.pending
              (snd out) Sample.data1 Sample.b1 (Result.okWith Sample.r1))
    as [Hlocal Hremote]; try reflexivity.
  split; [exact Hlocal|]. apply Hremote.
  rewrite list_elem_of_In. vm_compute. intuition discriminate.
Defined.


(** ** Reverse transition on review deletion *)

(** C2, at a concrete input: the booking b1 of tour t1 is 'reviewed' in the
    cache and in the remote store and the user's review r1 of t1 is cached;
    the review is deleted, the booking-status endpoint is down.
    [deleteReview] reports success and the remote booking is still
    'reviewed'. *)
Lemma deleteReview_remote_booking_stays_reviewed :
  let out := deleteReview Sample.bookingsDown "r1" Sample.reviewed in
  userReview Sample.reviewed "r1" = Some Sample.r1 /\
  findBookingByTourId Sample.reviewed (Review.tour Sample.r1)
    = Some (withStatus "reviewed" Sample.b1) /\
  fst out = inr Result.ok /\
  Result.success Result.ok = true /\
  remoteBookings (snd out) !! "b1" = Some "reviewed" /\
  remoteBookings (snd out) !! "b1" <> Some "pending-review".
Proof. vm_compute. repeat split; discriminate. Qed.

(** C2, amended: when the cached review with the given id belongs to a
    tour whose booking is found 'reviewed' and [deleteReview] returns
    success, the booking found for the tour in the cache is afterwards that
    booking with status 'pending-review'; the remote store holds
    'pending-review' for it as well unless the remote booking-status update
    failed. *)
Theorem deleteReview_marks_booking_pending
    (backend : Backend) (w w' : World) (reviewId : string)
    (reviewToDelete : Review.t) (booking : Booking.t) (res : Result.t) :
  userReview w reviewId = Some reviewToDelete ->
  findBookingByTourId w (Review.tour reviewToDelete) = Some booking ->
  Booking.status booking = "reviewed" ->
  deleteReview backend reviewId w = (inr res, w') ->
  Result.success res = true ->
  findBookingByTourId w' (Review.tour reviewToDelete)
    = Some (withStatus "pending-review" booking) /\
  ((PatchBookingStatus (Booking.id booking) "pending-review", false)
     ∉ issued w w' ->
   remoteBookings w' !! Booking.id booking = Some "pending-review").
Proof.
  intros Hreview Hfind Hstatus Hrun Hok.
  pose proof (find_withStatus _ "pending-review" _ _ Hfind) as Hlocal.
  revert Hrun. hook_unfold.
  rewrite Hreview, Hfind, (bool_decide_eq_true_2 _ Hstatus).
  hook_simpl. repeat hook_step.
  all: intros [= <- <-]; try discriminate Hok.
  all: hook_simpl; split; [exact Hlocal | intros Hnot; issued_norm].
  all: try solve [exfalso; apply Hnot; here_or_further].
  all: apply lookup_insert_eq.
Qed.

(** An instance: on a healthy backend, deleting r1 puts the booking b1 back
    to 'pending-review' in the cache and in the remote store. *)
Lemma deleteReview_marks_booking_pending_witness :
  let out := deleteReview Sample.healthy "r1" Sample.reviewed in
  findBookingByTourId (snd out) "t1"
    = Some (withStatus "pending-review" (withStatus "reviewed" Sample.b1)) /\
  remoteBookings (snd out) !! "b1" = Some "pending-review".
Proof.
  intros out.
  destruct (deleteReview_marks_booking_pending Sample.healthy Sample.reviewed
              (snd out) "r1" Sample.r1 (withStatus "reviewed" Sample.b1)
              Result.ok)
    as [Hlocal Hremote]; try reflexivity.
  split; [exact Hlocal|]. apply Hremote.
  rewrite list_elem_of_In. vm_compute. intuition discriminate.
Defined.

(** ** Isolation of the secondary effect *)

(** C3: once the backend has accepted the review creation (resp. deletion),
    [createReview] (resp. [deleteReview]) returns success whatever the
    booking-status endpoint answers afterwards, and the user's reviews in
    the store contain the new review (resp. no review with the deleted
    id); no compensating delete (resp. create) request is issued. *)
Theorem secondary_failure_never_undoes_primary (backend : Backend) (w : World) :
  (forall reviewData newReview,
     on_createReview backend (length (calls w)) reviewData = inr newReview ->
     exists w',
       createReview backend reviewData w = (inr (Result.okWith newReview), w') /\
       newReview ∈ ReviewsState.userReviews (reviews (store w')) /\
       (forall c ok, (c, ok) ∈ issued w w' -> forall i, c <> DeleteReview i))
  /\
  (forall reviewId reviewToDelete u,
     userReview w reviewId = Some reviewToDelete ->
     on_deleteReview backend (length (calls w)) reviewId = inr u ->
     exists w',
       deleteReview backend reviewId w = (inr Result.ok, w') /\
       (forall r, r ∈ ReviewsState.userReviews (reviews (store w')) ->
                  Review.id r <> reviewId) /\
       (forall c ok, (c, ok) ∈ issued w w' -> forall d, c <> PostReview d)).
Proof.
  split.
  - intros reviewData newReview Hreply. hook_unfold. hook_simpl.
    rewrite Hreply. hook_simpl. repeat hook_step.
    all: eexists; split; [reflexivity|]; hook_simpl; issued_norm.
    all: split; [apply elem_of_app; right; apply list_elem_of_here|].
    all: intros c ok Hin i ->; rewrite list_elem_of_In in Hin.
    all: cbn [In] in Hin; intuition discriminate.
  - intros reviewId reviewToDelete u Hreview Hreply. hook_unfold. hook_simpl.
    rewrite Hreview. hook_simpl. rewrite Hreply. hook_simpl. repeat hook_step.
    all: eexists; split; [reflexivity|]; hook_simpl; issued_norm.
    all: split; [intros r [Hr _]%list_elem_of_filter; exact Hr|].
    all: intros c ok Hin d ->; rewrite list_elem_of_In in Hin.
    all: cbn [In] in Hin; intuition discriminate.
Qed.

(** An instance with the booking-status endpoint down: the status update
    is issued and fails, yet both operations succeed. *)
Lemma secondary_failure_never_undoes_primary_witness :
  let created := createReview Sample.bookingsDown Sample.data1 Sample.pending in
  let deleted := deleteReview Sample.bookingsDown "r1" Sample.reviewed in
  ((PatchBookingStatus "b1" "reviewed", false) ∈ issued Sample.pending (snd created) /\
   fst created = inr (Result.okWith Sample.r1) /\
   Sample.r1 ∈ ReviewsState.userReviews (reviews (store (snd created)))) /\
  ((PatchBookingStatus "b1" "pending-review", false)
     ∈ issued Sample.reviewed (snd deleted) /\
   fst deleted = inr Result.ok /\
   forall r, r ∈ ReviewsState.userReviews (reviews (store (snd deleted))) ->
             Review.id r <> "r1").
Proof.
  intros created deleted.
  destruct (secondary_failure_never_undoes_primary Sample.bookingsDown Sample.pending)
    as [Hcreate _].
  destruct (secondary_failure_never_undoes_primary Sample.bookingsDown Sample.reviewed)
    as [_ Hdelete].
  destruct (Hcreate Sample.data1 Sample.r1 eq_refl) as (w1 & Hrun1 & Hin1 & _).
  destruct (Hdelete "r1" Sample.r1 tt eq_refl eq_refl) as (w2 & Hrun2 & Hout2 & _).
  split; (split; [rewrite list_elem_of_In; vm_compute; tauto|]).
  - subst created. rewrite Hrun1. split; [reflexivity | exact Hin1].
  - subst deleted. rewrite Hrun2. split; [reflexivity | exact Hout2].
Defined.

(** ** Aborted deletions *)

(** C4: [deleteReview] of an id with no review in the cached user reviews
    fails with the message 'Review not found in local state' without
    issuing any remote call; and whenever the backend rejects the deletion
    request the operation fails having issued nothing but that request.  In
    both cases the reviews caches, the bookings slice and the remote
    booking statuses are as before. *)
Theorem deleteReview_aborts_without_local_change
    (backend : Backend) (w : World) (reviewId : string) :
  (userReview w reviewId = None ->
   exists w',
     deleteReview backend reviewId w
       = (inr (Result.failure "Review not found in local state"), w') /\
     issued w w' = [] /\
     remoteBookings w' = remoteBookings w /\
     sameCaches w w')
  /\
  (forall e,
     on_deleteReview backend (length (calls w)) reviewId = inl e ->
     exists errorMessage w',
       deleteReview backend reviewId w = (inr (Result.failure errorMessage), w') /\
       (forall c, c ∈ issued w w' -> c = (DeleteReview reviewId, false)) /\
       remoteBookings w' = remoteBookings w /\
       sameCaches w w').
Proof.
  split.
  - intros Hnone. hook_unfold. rewrite Hnone. hook_simpl.
    eexists; split; [reflexivity|]. issued_norm. hook_simpl.
    unfold sameCaches. hook_simpl. repeat split; reflexivity.
  - intros e Hreply. hook_unfold. hook_simpl.
    destruct (List.find _ _) eqn:Hfind; hook_simpl; [rewrite Hreply|].
    all: hook_simpl; do 2 eexists; split; [reflexivity|].
    all: issued_norm; hook_simpl; unfold sameCaches; hook_simpl.
    all: repeat split; try reflexivity.
    + intros c Hc%list_elem_of_singleton. exact Hc.
    + intros c Hc. inversion Hc.
Qed.

(** Instances: an unknown id on a healthy backend, and a known id on a
    backend that is down. *)
Lemma deleteReview_aborts_without_local_change_witness :
  (exists w',
     deleteReview Sample.healthy "r9" Sample.reviewed
       = (inr (Result.failure "Review not found in local state"), w') /\
     issued Sample.reviewed w' = [] /\
     remoteBookings w' = remoteBookings Sample.reviewed /\
     sameCaches Sample.reviewed w')
  /\
  (exists errorMessage w',
     deleteReview Sample.down "r1" Sample.reviewed
       = (inr (Result.failure errorMessage), w') /\
     (forall c, c ∈ issued Sample.reviewed w' -> c = (DeleteReview "r1", false)) /\
     remoteBookings w' = remoteBookings Sample.reviewed /\
     sameCaches Sample.reviewed w').
Proof.
  split.
  - apply (deleteReview_aborts_without_local_change Sample.healthy
             Sample.reviewed "r9"). reflexivity.
  - apply (proj2 (deleteReview_aborts_without_local_change Sample.down
                    Sample.reviewed "r1") Sample.unavailable). reflexivity.
Defined.

(** ** Frame properties of the booking status *)

(** C5: when no booking is found for the tour, [createReview] and
    [deleteReview] return a result without writing any booking status,
    neither to the bookings slice nor to the remote store, and the result
    is the successful one whenever the review request itself was accepted:
    the missing booking reports no error. *)
Theorem no_booking_no_status_write (backend : Backend) (w : World) :
  (forall reviewData,
     findBookingByTourId w (CreateReviewData.tour reviewData) = None ->
     exists res w',
       createReview backend reviewData w = (inr res, w') /\
       noBookingWrite w w' /\
       (forall newReview,
          on_createReview backend (length (calls w)) reviewData = inr newReview ->
          res = Result.okWith newReview))
  /\
  (forall reviewId reviewToDelete,
     userReview w reviewId = Some reviewToDelete ->
     findBookingByTourId w (Review.tour reviewToDelete) = None ->
     exists res w',
       deleteReview backend reviewId w = (inr res, w') /\
       noBookingWrite w w' /\
       (forall u,
          on_deleteReview backend (length (calls w)) reviewId = inr u ->
          res = Result.ok)).
Proof.
  split.
  - intros reviewData Hnone. hook_unfold. rewrite Hnone. hook_simpl.
    repeat hook_step.
    all: do 2 eexists; split; [reflexivity|]; issued_norm; hook_simpl.
    all: repeat split; try reflexivity; congruence.
  - intros reviewId reviewToDelete Hreview Hnone. hook_unfold.
    rewrite Hreview, Hnone. hook_simpl. repeat hook_step.
    all: do 2 eexists; split; [reflexivity|]; issued_norm; hook_simpl.
    all: repeat split; try reflexivity; congruence.
Qed.

(** Instances: the user has no booking at all and the backend is healthy. *)
Lemma no_booking_no_status_write_witness :
  (exists res w',
     createReview Sample.healthy Sample.data1 Sample.unbooked = (inr res, w') /\
     noBookingWrite Sample.unbooked w' /\
     res = Result.okWith Sample.r1)
  /\
  (exists res w',
     deleteReview Sample.healthy "r1" Sample.unbooked = (inr res, w') /\
     noBookingWrite Sample.unbooked w' /\
     res = Result.ok).
Proof.
  destruct (no_booking_no_status_write Sample.healthy Sample.unbooked)
    as [Hcreate Hdelete].
  split.
  - destruct (Hcreate Sample.data1 eq_refl) as (res & w' & Hrun & Hframe & Hres).
    exists res, w'. repeat split; try apply Hframe; [exact Hrun|].
    apply Hres. reflexivity.
  - destruct (Hdelete "r1" Sample.r1 eq_refl eq_refl)
      as (res & w' & Hrun & Hframe & Hres).
    exists res, w'. repeat split; try apply Hframe; [exact Hrun|].
    apply (Hres tt). reflexivity.
Defined.

(** C6: when the booking found for the tour is not 'pending-review',
    [createReview] writes no booking status at all: the bookings slice and
    the remote booking statuses are as before and no booking-status request
    is issued. *)
Theorem createReview_guarded_transition
    (backend : Backend) (w : World) (reviewData : CreateReviewData.t)
    (booking : Booking.t) :
  findBookingByTourId w (CreateReviewData.tour reviewData) = Some booking ->
  Booking.status booking <> "pending-review" ->
  exists res w',
    createReview backend reviewData w = (inr res, w') /\
    noBookingWrite w w'.
Proof.
  intros Hfind Hstatus. hook_unfold.
  rewrite Hfind, (bool_decide_eq_false_2 _ Hstatus). hook_simpl.
  repeat hook_step.
  all: do 2 eexists; split; [reflexivity|]; issued_norm; hook_simpl.
  all: repeat split; reflexivity.
Qed.

(** An instance: the booking of t1 is already 'reviewed'. *)
Lemma createReview_guarded_transition_witness :
  exists res w',
    createReview Sample.healthy Sample.data1 Sample.reviewed = (inr res, w') /\
    noBookingWrite Sample.reviewed w'.
Proof.
  apply (createReview_guarded_transition Sample.healthy Sample.reviewed
           Sample.data1 (withStatus "reviewed" Sample.b1)).
  - reflexivity.
  - discriminate.
Defined.

(** C7: [updateReview] sends the update request for the review first,
    and on its success replaces the review in the user's reviews; it leaves
    the bookings slice (hence the status of every cached booking) and the
    remote booking statuses as they were and issues no booking-status
    request. *)
Theorem updateReview_leaves_bookings_alone
    (backend : Backend) (w : World) (reviewId : string)
    (updateData : UpdateReviewData.t) :
  exists res w',
    updateReview backend reviewId updateData w = (inr res, w') /\
    noBookingWrite w w' /\
    head (issued w w') = Some (PatchReview reviewId updateData, Result.success res) /\
    (forall updated,
       on_updateReview backend (length (calls w)) reviewId updateData = inr updated ->
       res = Result.okWith updated /\
       ReviewsState.userReviews (reviews (store w'))
         = map (fun x => if bool_decide (Review.id x = Review.id updated)
                         then updated else x)
               (ReviewsState.userReviews (reviews (store w)))).
Proof.
  hook_unfold. hook_simpl. repeat hook_step.
  all: do 2 eexists; split; [reflexivity|]; issued_norm; hook_simpl.
  all: repeat split; try reflexivity; try discriminate.
  all: simplify_eq; reflexivity.
Qed.

(** An instance: editing r1 while the booking of t1 is 'reviewed'. *)
Lemma updateReview_leaves_bookings_alone_witness :
  exists res w',
    updateReview Sample.healthy "r1" (UpdateReviewData.mk (Some 4%Z) None None)
      Sample.reviewed = (inr res, w') /\
    bookings (store w') = bookings (store Sample.reviewed) /\
    remoteBookings w' = remoteBookings Sample.reviewed /\
    bookingWrites Sample.reviewed w' = [].
Proof.
  destruct (updateReview_leaves_bookings_alone Sample.healthy Sample.reviewed
              "r1" (UpdateReviewData.mk (Some 4%Z) None None))
    as (res & w' & Hrun & Hframe & _).
  exists res, w'. split; [exact Hrun | exact Hframe].
Defined.

(** ** Structured results *)

(** C8: from every world and for every behaviour of the backend, each
    operation returns a result record, never an exception, with an error
    message exactly when [success] is false; and when the operation's own
    remote request fails the record is a failure carrying a message. *)
Theorem operations_return_structured_results (backend : Backend) (w : World) :
  (forall reviewData, exists res w',
     createReview backend reviewData w = (inr res, w') /\ structured res /\
     ((PostReview reviewData, false) ∈ issued w w' ->
      exists errorMessage, res = Result.failure errorMessage))
  /\
  (forall reviewId updateData, exists res w',
     updateReview backend reviewId updateData w = (inr res, w') /\ structured res /\
     ((PatchReview reviewId updateData, false) ∈ issued w w' ->
      exists errorMessage, res = Result.failure errorMessage))
  /\
  (forall reviewId, exists res w',
     deleteReview backend reviewId w = (inr res, w') /\ structured res /\
     ((DeleteReview reviewId, false) ∈ issued w w' ->
      exists errorMessage, res = Result.failure errorMessage))
  /\
  (forall tourId, exists res w',
     loadTourReviews backend tourId w = (inr res, w') /\ structured res /\
     ((FetchTourReviews tourId, false) ∈ issued w w' ->
      exists errorMessage, res = Result.failure errorMessage))
  /\
  (exists res w',
     loadUserReviews backend w = (inr res, w') /\ structured res /\
     ((FetchUserReviews, false) ∈ issued w w' ->
      exists errorMessage, res = Result.failure errorMessage))
  /\
  (exists res w',
     loadUserBookings backend w = (inr res, w') /\ structured res /\
     ((FetchUserBookings, false) ∈ issued w w' ->
      exists errorMessage, res = Result.failure errorMessage)).
Proof.
  repeat apply conj; intros; hook_unfold; hook_simpl; repeat hook_step.
  all: do 2 eexists; split; [reflexivity|]; issued_norm.
  all: unfold structured; hook_simpl.
  all: split; [first [reflexivity | eexists; reflexivity]|].
  all: intros Hfailed; try solve [eexists; reflexivity].
  all: not_issued Hfailed.
Qed.

(** An instance: every operation on a backend that is down. *)
Lemma operations_return_structured_results_witness :
  fst (createReview Sample.down Sample.data1 Sample.pending)
    = inr (Result.failure "Service unavailable") /\
  fst (deleteReview Sample.down "r1" Sample.reviewed)
    = inr (Result.failure "Service unavailable") /\
  exists res w',
    loadUserBookings Sample.down Sample.pending = (inr res, w') /\ structured res.
Proof.
  destruct (operations_return_structured_results Sample.down Sample.pending)
    as (_ & _ & _ & _ & _ & res & w' & Hrun & Hshape & _).
  repeat split; try reflexivity. exists res, w'. split; assumption.
Defined.

(** ** Guards of the booking markers *)

(** What the first booking of a tour says about the bookings of that tour. *)
Lemma findBookingByTourId_some (w : World) (tourId : string) (booking : Booking.t) :
  findBookingByTourId w tourId = Some booking ->
  booking ∈ BookingsState.userBookings (bookings (store w)) /\
  Booking.tourId booking = tourId.
Proof.
  unfold findBookingByTourId, useBookings.findBookingByTourId.
  intros [Hin Htour]%List.find_some. split.
  - now apply list_elem_of_In.
  - now apply bool_decide_eq_true_1 in Htour.
Qed.

(** C9: [markBookingAsReviewed] issues a request only when the booking
    found for the tour is 'pending-review', and then only the status update
    of that booking to 'reviewed'; [markBookingAsPendingReview] only when it
    is 'reviewed', and then only the update to 'pending-review'.  When no
    cached booking of the tour has the expected status, each returns a
    failure with a message and leaves the whole world (store, remote store,
    call log) as it was. *)
Theorem markBooking_guards (backend : Backend) (w : World) (tourId : string) :
  (forall out w' c succeeded,
     markBookingAsReviewed backend tourId w = (out, w') ->
     (c, succeeded) ∈ issued w w' ->
     exists booking,
       booking ∈ BookingsState.userBookings (bookings (store w)) /\
       Booking.tourId booking = tourId /\
       Booking.status booking = "pending-review" /\
       c = PatchBookingStatus (Booking.id booking) "reviewed")
  /\
  (forall out w' c succeeded,
     markBookingAsPendingReview backend tourId w = (out, w') ->
     (c, succeeded) ∈ issued w w' ->
     exists booking,
       booking ∈ BookingsState.userBookings (bookings (store w)) /\
       Booking.tourId booking = tourId /\
       Booking.status booking = "reviewed" /\
       c = PatchBookingStatus (Booking.id booking) "pending-review")
  /\
  ((forall booking,
      booking ∈ BookingsState.userBookings (bookings (store w)) ->
      Booking.tourId booking = tourId ->
      Booking.status booking <> "pending-review") ->
   exists errorMessage,
     markBookingAsReviewed backend tourId w = (inr (Result.failure errorMessage), w))
  /\
  ((forall booking,
      booking ∈ BookingsState.userBookings (bookings (store w)) ->
      Booking.tourId booking = tourId ->
      Booking.status booking <> "reviewed") ->
   exists errorMessage,
     markBookingAsPendingReview backend tourId w
       = (inr (Result.failure errorMessage), w)).
Proof.
  repeat apply conj.
  - intros out w' c succeeded.
    destruct (findBookingByTourId w tourId) as [booking|] eqn:Hfind.
    + destruct (findBookingByTourId_some _ _ _ Hfind) as [Hin Htour].
      revert Hfind. hook_unfold. intros ->. hook_simpl.
      destruct (bool_decide (Booking.status booking = "pending-review")) eqn:Hst.
      * apply bool_decide_eq_true_1 in Hst. hook_simpl. repeat hook_step.
        all: intros [= <- <-]; issued_norm.
        all: intros ->%list_elem_of_singleton%pair_equal_spec%proj1; eauto.
      * hook_simpl. intros [= <- <-]. rewrite issued_refl. inversion 1.
    + revert Hfind. hook_unfold. intros ->. hook_simpl.
      intros [= <- <-]. rewrite issued_refl. inversion 1.
  - intros out w' c succeeded.
    destruct (findBookingByTourId w tourId) as [booking|] eqn:Hfind.
    + destruct (findBookingByTourId_some _ _ _ Hfind) as [Hin Htour].
      revert Hfind. hook_unfold. intros ->. hook_simpl.
      destruct (bool_decide (Booking.status booking = "reviewed")) eqn:Hst.
      * apply bool_decide_eq_true_1 in Hst. hook_simpl. repeat hook_step.
        all: intros [= <- <-]; issued_norm.
        all: intros ->%list_elem_of_singleton%pair_equal_spec%proj1; eauto.
      * hook_simpl. intros [= <- <-]. rewrite issued_refl. inversion 1.
    + revert Hfind. hook_unfold. intros ->. hook_simpl.
      intros [= <- <-]. rewrite issued_refl. inversion 1.
  - intros Hnone.
    destruct (findBookingByTourId w tourId) as [booking|] eqn:Hfind.
    + destruct (findBookingByTourId_some _ _ _ Hfind) as [Hin Htour].
      pose proof (Hnone _ Hin Htour) as Hst.
      revert Hfind. hook_unfold. intros ->.
      rewrite (bool_decide_eq_false_2 _ Hst). hook_simpl. eauto.
    + revert Hfind. hook_unfold. intros ->. eauto.
  - intros Hnone.
    destruct (findBookingByTourId w tourId) as [booking|] eqn:Hfind.
    + destruct (findBookingByTourId_some _ _ _ Hfind) as [Hin Htour].
      pose proof (Hnone _ Hin Htour) as Hst.
      revert Hfind. hook_unfold. intros ->.
      rewrite (bool_decide_eq_false_2 _ Hst). hook_simpl. eauto.
    + revert Hfind. hook_unfold. intros ->. eauto.
Qed.

(** An instance: the only booking of t1 is already 'reviewed', so marking
    it reviewed again fails and changes nothing. *)
Lemma markBooking_guards_witness :
  exists errorMessage,
    markBookingAsReviewed Sample.healthy "t1" Sample.reviewed
      = (inr (Result.failure errorMessage), Sample.reviewed).
Proof.
  apply (markBooking_guards Sample.healthy Sample.reviewed "t1").
  intros booking Hin%list_elem_of_singleton _. subst booking. discriminate.
Defined.

(** ** Warm cache of tour reviews *)

(** C10: when the reviews cache holds a non-empty list for the tour,
    [loadTourReviews] returns success at once and leaves the world (store,
    remote store, call log) as it was, so that calling it twice is calling
    it once; a request is issued only when the cache has no entry or an
    empty one for the tour, and, for a tour id that is not the name of a
    member of [Object.prototype], it is issued once the entry has been
    cleared. *)
Theorem loadTourReviews_idempotent_when_warm
    (backend : Backend) (w : World) (tourId : string) :
  (forall r rs,
     ReviewsState.tourReviews (reviews (store w)) !! tourId = Some (r :: rs) ->
     loadTourReviews backend tourId w = (inr Result.ok, w) /\
     (loadTourReviews backend tourId;; loadTourReviews backend tourId) w
       = loadTourReviews backend tourId w)
  /\
  (forall out w',
     loadTourReviews backend tourId w = (out, w') ->
     issued w w' <> [] ->
     ReviewsState.tourReviews (reviews (store w)) !! tourId = None \/
     ReviewsState.tourReviews (reviews (store w)) !! tourId = Some [])
  /\
  (objectPrototype tourId = None ->
   exists succeeded,
     let cleared := snd (dispatch (clearTourReviews tourId) w) in
     issued cleared (snd (loadTourReviews backend tourId cleared))
       = [(FetchTourReviews tourId, succeeded)]).
Proof.
  assert (forall r rs,
            ReviewsState.tourReviews (reviews (store w)) !! tourId = Some (r :: rs) ->
            loadTourReviews backend tourId w = (inr Result.ok, w)) as Hwarm.
  { intros r rs Hcache. hook_unfold.
    rewrite (readTourReviews_own _ _ _ Hcache). reflexivity. }
  repeat apply conj.
  - intros r rs Hcache. split; [now apply (Hwarm r rs)|].
    unfold bind. rewrite (Hwarm r rs Hcache). cbv beta iota.
    now apply (Hwarm r rs).
  - intros out w'.
    destruct (ReviewsState.tourReviews (reviews (store w)) !! tourId)
      as [[|r rs]|] eqn:Hcache; auto.
    rewrite (Hwarm r rs eq_refl). intros [= <- <-]. rewrite issued_refl.
    intros Hne. now destruct Hne.
  - intros Hplain. hook_unfold. hook_simpl.
    rewrite (readTourReviews_absent _ _ (lookup_delete_eq _ _) Hplain).
    hook_step; eexists; issued_norm; reflexivity.
Qed.

(** An instance: the reviews of t1 are cached; loading them again is a
    no-op on any backend. *)
Lemma loadTourReviews_idempotent_when_warm_witness :
  loadTourReviews Sample.down "t1" Sample.warm = (inr Result.ok, Sample.warm) /\
  (loadTourReviews Sample.down "t1";; loadTourReviews Sample.down "t1") Sample.warm
    = loadTourReviews Sample.down "t1" Sample.warm.
Proof.
  apply (proj1 (loadTourReviews_idempotent_when_warm Sample.down Sample.warm "t1")
           Sample.r1 []).
  reflexivity.
Defined.

(** Within one render the callbacks keep reading the slices selected at
    that render: [refreshTourReviews] on a warm cache clears the entry in
    the store and then returns at once, without a request; the fetch is
    left to the callback of the next render. *)
Example refreshTourReviews_reads_its_render :
  let out := useReviews.refreshTourReviews Sample.healthy
               (reviews (store Sample.warm)) "t1" Sample.warm in
  fst out = inr Result.ok /\
  issued Sample.warm (snd out) = [] /\
  ReviewsState.tourReviews (reviews (store (snd out))) !! "t1" = None.
Proof. vm_compute. auto. Qed.

(** * Further properties of the code *)

(** ** Error messages of the review service *)

(** X1: a review request that the backend rejects with status 409 makes
    [createReview] return the failure 'You have already reviewed this
    tour', whatever message the backend sent; the same text is put in the
    slice's error field, nothing but the rejected request is issued, and
    the caches and remote booking statuses are as before. *)
Theorem createReview_duplicate_is_reported
    (backend : Backend) (w : World) (reviewData : CreateReviewData.t)
    (e : ApiError) :
  on_createReview backend (length (calls w)) reviewData = inl e ->
  statusCode e = Some 409%Z ->
  exists w',
    createReview backend reviewData w
      = (inr (Result.failure "You have already reviewed this tour"), w') /\
    ReviewsState.error (reviews (store w'))
      = Some "You have already reviewed this tour" /\
    issued w w' = [(PostReview reviewData, false)] /\
    remoteBookings w' = remoteBookings w /\
    sameCaches w w'.
Proof.
  intros Hreply Hstatus. hook_unfold. hook_simpl. rewrite Hreply.
  unfold reviewsService.transformReviewsError.
  rewrite (bool_decide_eq_true_2 _ Hstatus). hook_simpl.
  eexists; split; [reflexivity|]. issued_norm. unfold sameCaches. hook_simpl.
  repeat split; reflexivity.
Qed.

Lemma createReview_duplicate_is_reported_witness :
  let conflict :=
    mkBackend (fun _ _ => inr []) (fun _ => inr [])
              (fun _ _ => inl (mkApiError (Some 409%Z) "Duplicate field value"))
              (fun _ _ _ => inr Sample.r1) (fun _ _ => inr tt) (fun _ => inr [])
              (fun _ _ _ => inr tt) in
  exists w',
    createReview conflict Sample.data1 Sample.reviewed
      = (inr (Result.failure "You have already reviewed this tour"), w') /\
    ReviewsState.error (reviews (store w'))
      = Some "You have already reviewed this tour" /\
    issued Sample.reviewed w' = [(PostReview Sample.data1, false)] /\
    remoteBookings w' = remoteBookings Sample.reviewed /\
    sameCaches Sample.reviewed w'.
Proof.
  intros conflict.
  apply (createReview_duplicate_is_reported conflict Sample.reviewed Sample.data1
           (mkApiError (Some 409%Z) "Duplicate field value")); reflexivity.
Defined.

(** X2: whenever the request of a review mutation fails, the result of the
    hook carries the message of the service error, never the hook's own
    fallback text ('Failed to ... Please try again.'): the service wraps
    every failure in a [ReviewsError].  The same message is left in the
    slice's error field and the submitting flag is reset. *)
Theorem mutation_failure_reports_service_message
    (backend : Backend) (w : World) (e : ApiError) :
  (forall reviewData,
     on_createReview backend (length (calls w)) reviewData = inl e ->
     exists w',
       createReview backend reviewData w
         = (inr (Result.failure (serviceMessage e)), w') /\
       ReviewsState.error (reviews (store w')) = Some (serviceMessage e) /\
       ReviewsState.isSubmitting (reviews (store w')) = false)
  /\
  (forall reviewId updateData,
     on_updateReview backend (length (calls w)) reviewId updateData = inl e ->
     exists w',
       updateReview backend reviewId updateData w
         = (inr (Result.failure (serviceMessage e)), w') /\
       ReviewsState.error (reviews (store w')) = Some (serviceMessage e) /\
       ReviewsState.isSubmitting (reviews (store w')) = false)
  /\
  (forall reviewId reviewToDelete,
     userReview w reviewId = Some reviewToDelete ->
     on_deleteReview backend (length (calls w)) reviewId = inl e ->
     exists w',
       deleteReview backend reviewId w
         = (inr (Result.failure (serviceMessage e)), w') /\
       ReviewsState.error (reviews (store w')) = Some (serviceMessage e) /\
       ReviewsState.isSubmitting (reviews (store w')) = false).
Proof.
  assert (forall a, exists message code,
            reviewsService.transformReviewsError a = ReviewsError message code /\
            serviceMessage a = message) as Hwrap.
  { intros a. unfold serviceMessage, reviewsService.transformReviewsError.
    destruct (bool_decide _); eauto. }
  destruct (Hwrap e) as (message & code & Herror & Hmessage).
  repeat apply conj.
  - intros reviewData Hreply. hook_unfold. hook_simpl.
    rewrite Hreply, Hmessage, Herror. hook_simpl.
    eexists; repeat split; reflexivity.
  - intros reviewId updateData Hreply. hook_unfold. hook_simpl.
    rewrite Hreply, Hmessage, Herror. hook_simpl.
    eexists; repeat split; reflexivity.
  - intros reviewId reviewToDelete Hreview Hreply. hook_unfold. hook_simpl.
    rewrite Hreview. hook_simpl. rewrite Hreply, Hmessage, Herror. hook_simpl.
    eexists; repeat split; reflexivity.
Qed.

Lemma mutation_failure_reports_service_message_witness :
  exists w',
    deleteReview Sample.down "r1" Sample.reviewed
      = (inr (Result.failure "Service unavailable"), w') /\
    ReviewsState.error (reviews (store w')) = Some "Service unavailable" /\
    ReviewsState.isSubmitting (reviews (store w')) = false.
Proof.
  apply (proj2 (proj2 (mutation_failure_reports_service_message Sample.down
                         Sample.reviewed Sample.unavailable)) "r1" Sample.r1);
    reflexivity.
Defined.

(** ** The mock data and the transformer of the review service *)

(** X3: whatever tour is asked for, [generateMockReviews] returns the same
    three reviews, ids 1, 2 and 3 in this order; with a non-empty tour id
    each of them is labelled with that tour, so the filter on the tour
    never drops one. *)
Theorem generateMockReviews_keeps_all (tourId : option string) :
  map Review.id (reviewsService.generateMockReviews tourId) = ["1"; "2"; "3"] /\
  (reviewsService.truthyString tourId = true ->
   forall r, r ∈ reviewsService.generateMockReviews tourId ->
             Some (Review.tour r) = tourId).
Proof.
  unfold reviewsService.generateMockReviews.
  destruct (reviewsService.truthyString tourId) eqn:Htruthy.
  - destruct tourId as [s|]; [|discriminate]. cbn [default List.filter Review.tour].
    rewrite !(bool_decide_eq_true_2 (Some s = Some s)) by reflexivity.
    split; [reflexivity|]. intros _ r Hr. rewrite list_elem_of_In in Hr.
    cbn [In] in Hr. destruct Hr as [<-|[<-|[<-|[]]]]; reflexivity.
  - split; [reflexivity | discriminate].
Qed.

(** X4: [transformReview] throws exactly when the review itself, its
    [tour] or its [user] is [undefined] or [null] (a missing key counts as
    [undefined]); any other input, even one without an id or a rating, is
    transformed. *)
Theorem transformReview_throws_iff (review : JSValue) :
  (exists e, reviewsService.transformReview review = inl e) <->
  reviewsService.nullish review = true \/
  reviewsService.nullish (reviewsService.field review "tour") = true \/
  reviewsService.nullish (reviewsService.field review "user") = true.
Proof.
  unfold reviewsService.transformReview, reviewsService.field.
  destruct review as [| | | | | |fields]; cbn; try (split; [eauto | eauto]).
  all: destruct (default JUndefined (fields !! "tour")) eqn:Htour;
    destruct (default JUndefined (fields !! "user")) eqn:Huser; cbn.
  all: try solve [intros [e He]; discriminate He].
  all: try solve [intros [H|[H|H]]; discriminate H].
  all: eauto.
Qed.

(** The keys of a transformed review written back as a wire value. *)
Lemma asValue_fields (t : reviewsService.Transformed) :
  exists fields userFields,
    reviewsService.asValue t = JObject fields /\
    fields !! "_id" = None /\ fields !! "id" = Some (reviewsService.t_id t) /\
    fields !! "review" = Some (reviewsService.t_review t) /\
    fields !! "rating" = Some (reviewsService.t_rating t) /\
    fields !! "createdAt" = Some (reviewsService.t_createdAt t) /\
    fields !! "updatedAt" = Some (reviewsService.t_updatedAt t) /\
    fields !! "tour" = Some (reviewsService.t_tour t) /\
    fields !! "user" = Some (JObject userFields) /\
    userFields !! "_id" = None /\
    userFields !! "id" = Some (reviewsService.t_user_id t) /\
    userFields !! "name" = Some (reviewsService.t_user_name t) /\
    userFields !! "photo" = Some (reviewsService.t_user_photo t).
Proof.
  do 2 eexists. split; [reflexivity|]. cbn [list_to_map foldr uncurry].
  repeat split; simplify_map_eq; reflexivity.
Qed.

(** X5: a transformed review whose tour is not an object is a fixed point
    of [transformReview]: written back as a wire value and transformed
    again, it comes out unchanged. *)
Theorem transformReview_fixed_point
    (review : JSValue) (t : reviewsService.Transformed) :
  reviewsService.transformReview review = inr t ->
  (forall fields, reviewsService.t_tour t <> JObject fields) ->
  reviewsService.transformReview (reviewsService.asValue t) = inr t.
Proof.
  intros Hfirst Htour.
  assert (reviewsService.nullish (reviewsService.t_tour t) = false) as Hnn.
  { revert Hfirst. unfold reviewsService.transformReview.
    destruct review as [| | | | | |fields]; cbn; try discriminate.
    destruct (default JUndefined (fields !! "tour")) eqn:Ht; cbn; try discriminate.
    all: destruct (default JUndefined (fields !! "user")) eqn:Hu; cbn;
      try discriminate.
    all: intros [= <-]; cbn; try reflexivity.
    all: unfold reviewsService.orElse;
      destruct (reviewsService.truthy _) eqn:Htruthy; [|reflexivity].
    all: match goal with
         | H : reviewsService.truthy ?v = true
           |- reviewsService.nullish ?v = false =>
             destruct v; (discriminate H || reflexivity)
         end. }
  destruct (asValue_fields t)
    as (fields & userFields & -> & H_id & Hid & Hrev & Hrat & Hcr & Hup & Htr & Hus
        & Hu_id & Huid & Hname & Hphoto).
  unfold reviewsService.transformReview.
  cbn [reviewsService.getProp reviewsService.andThen].
  rewrite H_id, Hid, Hrev, Hrat, Hcr, Hup, Htr, Hus.
  cbn [default from_option id reviewsService.andThen reviewsService.getProp].
  rewrite Hu_id, Huid, Hname, Hphoto. cbn [default from_option id].
  destruct t as [i rv ra cr up tr ui un up']. cbn in *.
  destruct tr; cbn in *; try discriminate; try reflexivity.
  now destruct (Htour fields0).
Qed.

(** An instance: a review in the shape of the database, with [_id] keys
    and a populated tour. *)
Lemma transformReview_fixed_point_witness :
  let canonical :=
    reviewsService.mkTransformed (JString "r1") (JString "Great!") (JNumber 5)
      (JString "2024-01-15T10:00:00Z") JUndefined (JString "t1")
      (JString "u1") (JString "Alice") (JString "alice.jpg") in
  reviewsService.transformReview (reviewsService.asValue canonical) = inr canonical.
Proof.
  intros canonical.
  apply (transformReview_fixed_point
           (JObject (list_to_map
              [ ("_id", JString "r1"); ("review", JString "Great!");
                ("rating", JNumber 5); ("createdAt", JString "2024-01-15T10:00:00Z");
                ("tour", JObject (list_to_map [("_id", JString "t1");
                                               ("name", JString "The Forest Hiker")]));
                ("user", JObject (list_to_map [("_id", JString "u1");
                                               ("name", JString "Alice");
                                               ("photo", JString "alice.jpg")])) ]))).
  - reflexivity.
  - discriminate.
Defined.

(** X6: populating the tour relation does not change the result: a review
    whose [tour] is an object with a non-empty string [_id] is transformed
    exactly as the same review with [tour] being that id. *)
Theorem transformReview_ignores_population
    (fields tourFields : gmap string JSValue) (tourId : string) :
  tourFields !! "_id" = Some (JString tourId) ->
  tourId <> "" ->
  reviewsService.transformReview (JObject (<["tour" := JObject tourFields]> fields))
  = reviewsService.transformReview (JObject (<["tour" := JString tourId]> fields)).
Proof.
  intros Hid Hne. unfold reviewsService.transformReview.
  cbn [reviewsService.getProp reviewsService.andThen].
  rewrite !lookup_insert_eq, !lookup_insert_ne by discriminate.
  cbn [default from_option id reviewsService.getProp reviewsService.andThen].
  rewrite Hid. cbn [default from_option id].
  unfold reviewsService.orElse at 2 4. cbn [reviewsService.truthy].
  rewrite (bool_decide_eq_false_2 _ Hne). reflexivity.
Qed.

Lemma transformReview_ignores_population_witness :
  reviewsService.transformReview
    (JObject (<["tour" := JObject {[ "_id" := JString "t1" ]}]>
                {[ "_id" := JString "r1"; "user" := JObject ∅ ]}))
  = reviewsService.transformReview
      (JObject (<["tour" := JString "t1"]>
                  {[ "_id" := JString "r1"; "user" := JObject ∅ ]})).
Proof.
  apply (transformReview_ignores_population _ {[ "_id" := JString "t1" ]} "t1").
  - reflexivity.
  - discriminate.
Defined.


(** ** Loading and refreshing the review caches *)

(** [getTourReviews] gives the empty list for a tour exactly when
    [tourReviews[tourId]] is [undefined] or an empty own entry. *)
Lemma getTourReviews_cold (w : World) (tourId : string) :
  getTourReviews w tourId = Reviews [] ->
  readTourReviews (ReviewsState.tourReviews (reviews (store w))) tourId = None \/
  readTourReviews (ReviewsState.tourReviews (reviews (store w))) tourId
    = Some (Reviews []).
Proof.
  unfold getTourReviews, useReviews.getTourReviews.
  destruct (readTourReviews _ tourId) as [cached|]; [intros ->|]; auto.
Qed.

(** X7: on a cold cache ([getTourReviews] gives the empty list for the
    tour) a successful fetch makes [loadTourReviews] return success, issue
    that one request, store the fetched list so that [getTourReviews]
    returns it on the next render while what it returns for other tours is
    untouched, and leave the loading flag and the error field cleared. *)
Theorem loadTourReviews_caches_reply
    (backend : Backend) (w : World) (tourId : string) (rs : list Review.t) :
  getTourReviews w tourId = Reviews [] ->
  on_fetchTourReviews backend (length (calls w)) tourId = inr rs ->
  exists w',
    loadTourReviews backend tourId w = (inr Result.ok, w') /\
    getTourReviews w' tourId = Reviews rs /\
    (forall other, other <> tourId ->
                   getTourReviews w' other = getTourReviews w other) /\
    ReviewsState.isLoading (reviews (store w')) = false /\
    ReviewsState.error (reviews (store w')) = None /\
    issued w w' = [(FetchTourReviews tourId, true)].
Proof.
  intros Hcold Hreply. extra_unfold.
  destruct (getTourReviews_cold _ _ Hcold) as [-> | ->]; hook_simpl.
  all: rewrite Hreply; hook_simpl.
  all: eexists; split; [reflexivity|]; issued_norm; hook_simpl.
  all: rewrite (readTourReviews_own _ _ _ (lookup_insert_eq _ _ _)).
  all: repeat split; try reflexivity.
  all: intros other Hother; now rewrite readTourReviews_insert_ne.
Qed.

(** X8: an empty answer does not warm the cache.  Two calls in a row on
    a cold cache, the first fetch succeeding: when the tour has no reviews
    the second call fetches again, when it has some the second call issues
    nothing. *)
Theorem loadTourReviews_refetches_empty_tours
    (backend : Backend) (w : World) (tourId : string) (rs : list Review.t) :
  getTourReviews w tourId = Reviews [] ->
  on_fetchTourReviews backend (length (calls w)) tourId = inr rs ->
  exists out w',
    (loadTourReviews backend tourId;; loadTourReviews backend tourId) w = (out, w') /\
    match rs with
    | [] => exists succeeded,
              issued w w' = [(FetchTourReviews tourId, true);
                             (FetchTourReviews tourId, succeeded)]
    | _ :: _ => issued w w' = [(FetchTourReviews tourId, true)]
    end.
Proof.
  intros Hcold Hreply. extra_unfold.
  destruct (getTourReviews_cold _ _ Hcold) as [-> | ->]; hook_simpl.
  all: rewrite Hreply; hook_simpl.
  all: rewrite (readTourReviews_own _ _ _ (lookup_insert_eq _ _ _)).
  all: destruct rs as [|r rs]; hook_simpl.
  all: try (do 2 eexists; split; [reflexivity|]; issued_norm; reflexivity).
  all: hook_step; do 2 eexists; (split; [reflexivity|]); eexists; issued_norm;
    reflexivity.
Qed.

Lemma loadTourReviews_caches_reply_witness :
  exists w',
    loadTourReviews Sample.healthy "t1" Sample.pending = (inr Result.ok, w') /\
    getTourReviews w' "t1" = Reviews [Sample.r1] /\
    issued Sample.pending w' = [(FetchTourReviews "t1", true)].
Proof.
  destruct (loadTourReviews_caches_reply Sample.healthy Sample.pending "t1"
              [Sample.r1] eq_refl eq_refl)
    as (w' & Hrun & Hcached & _ & _ & _ & Hissued).
  exists w'. auto.
Defined.

Lemma loadTourReviews_refetches_empty_tours_witness :
  let noReviews :=
    mkBackend (fun _ _ => inr []) (fun _ => inr []) (fun _ _ => inr Sample.r1)
              (fun _ _ _ => inr Sample.r1) (fun _ _ => inr tt) (fun _ => inr [])
              (fun _ _ _ => inr tt) in
  exists out w',
    (loadTourReviews noReviews "t1";; loadTourReviews noReviews "t1") Sample.pending
      = (out, w') /\
    exists succeeded,
      issued Sample.pending w' = [(FetchTourReviews "t1", true);
                                  (FetchTourReviews "t1", succeeded)].
Proof.
  intros noReviews.
  apply (loadTourReviews_refetches_empty_tours noReviews Sample.pending "t1" []);
    reflexivity.
Defined.

(** X9: [refreshTourReviews] clears the entry in the store and then calls
    the [loadTourReviews] of its own render, which still reads the slice
    selected at that render.  Called where the tour's reviews are cached
    and non-empty, it therefore returns success without any request and
    leaves the store without an entry for the tour, so that
    [getTourReviews] gives the empty list for a tour id that is not the
    name of a member of [Object.prototype]; called on a cold cache it
    issues exactly one fetch, whose outcome is its result. *)
Theorem refreshTourReviews_reads_render_snapshot
    (backend : Backend) (w : World) (tourId : string) :
  (forall r rs,
     ReviewsState.tourReviews (reviews (store w)) !! tourId = Some (r :: rs) ->
     exists w',
       refreshTourReviews backend tourId w = (inr Result.ok, w') /\
       issued w w' = [] /\
       ReviewsState.tourReviews (reviews (store w')) !! tourId = None /\
       (objectPrototype tourId = None -> getTourReviews w' tourId = Reviews []))
  /\
  (getTourReviews w tourId = Reviews [] ->
   exists res w' succeeded,
     refreshTourReviews backend tourId w = (inr res, w') /\
     issued w w' = [(FetchTourReviews tourId, succeeded)] /\
     Result.success res = succeeded).
Proof.
  split.
  - intros r rs Hwarm. extra_unfold.
    rewrite (readTourReviews_own _ _ _ Hwarm). hook_simpl.
    eexists; split; [reflexivity|]. issued_norm. hook_simpl.
    repeat split; [apply lookup_delete_eq|].
    intros Hplain.
    now rewrite (readTourReviews_absent _ _ (lookup_delete_eq _ _) Hplain).
  - intros Hcold. extra_unfold.
    destruct (getTourReviews_cold _ _ Hcold) as [-> | ->]; hook_simpl.
    all: hook_step; do 3 eexists; (split; [reflexivity|]); issued_norm;
      split; reflexivity.
Qed.

(** X10: the refresh step of [createReview] has the same shape.  When the
    review is accepted and the tour's reviews are cached and non-empty at
    the render of the call, the result is success, no fetch of tour
    reviews is issued and the store is left without an entry for the tour,
    so that [getTourReviews] gives the empty list for a tour id that is
    not the name of a member of [Object.prototype]. *)
Theorem createReview_drops_warm_tour_reviews
    (backend : Backend) (w : World) (reviewData : CreateReviewData.t)
    (newReview r : Review.t) (rs : list Review.t) :
  on_createReview backend (length (calls w)) reviewData = inr newReview ->
  ReviewsState.tourReviews (reviews (store w)) !! CreateReviewData.tour reviewData
    = Some (r :: rs) ->
  exists w',
    createReview backend reviewData w = (inr (Result.okWith newReview), w') /\
    ReviewsState.tourReviews (reviews (store w')) !! CreateReviewData.tour reviewData
      = None /\
    (objectPrototype (CreateReviewData.tour reviewData) = None ->
     getTourReviews w' (CreateReviewData.tour reviewData) = Reviews []) /\
    (forall c succeeded t,
       (c, succeeded) ∈ issued w w' -> c <> FetchTourReviews t).
Proof.
  intros Hreply Hwarm. extra_unfold. hook_simpl.
  rewrite Hreply, (readTourReviews_own _ _ _ Hwarm). hook_simpl.
  repeat hook_step.
  all: eexists; split; [reflexivity|]; issued_norm; hook_simpl.
  all: split; [apply lookup_delete_eq|].
  all: split;
    [intros Hplain;
     now rewrite (readTourReviews_absent _ _ (lookup_delete_eq _ _) Hplain)|].
  all: intros c succeeded ? Hin ->; not_issued Hin.
Qed.

(** X11: [loadUserReviews] and [refreshUserReviews] both replace the
    cached user reviews by the fetched list when the fetch succeeds.  When
    it fails both return the failure with the service's message, but
    [loadUserReviews] keeps the cached reviews while [refreshUserReviews],
    which empties the cache first, leaves it empty. *)
Theorem user_reviews_reload (backend : Backend) (w : World) :
  (forall e,
     on_fetchUserReviews backend (length (calls w)) = inl e ->
     (exists w',
        loadUserReviews backend w = (inr (Result.failure (serviceMessage e)), w') /\
        ReviewsState.userReviews (reviews (store w'))
          = ReviewsState.userReviews (reviews (store w))) /\
     (exists w',
        refreshUserReviews backend w = (inr (Result.failure (serviceMessage e)), w') /\
        ReviewsState.userReviews (reviews (store w')) = []))
  /\
  (forall rs,
     on_fetchUserReviews backend (length (calls w)) = inr rs ->
     (exists w',
        loadUserReviews backend w = (inr Result.ok, w') /\
        ReviewsState.userReviews (reviews (store w')) = rs) /\
     (exists w',
        refreshUserReviews backend w = (inr Result.ok, w') /\
        ReviewsState.userReviews (reviews (store w')) = rs)).
Proof.
  split.
  - intros e Hreply.
    assert (exists message code,
              reviewsService.transformReviewsError e = ReviewsError message code /\
              serviceMessage e = message) as (message & code & Herror & Hmessage).
    { unfold serviceMessage, reviewsService.transformReviewsError.
      destruct (bool_decide _); eauto. }
    split; extra_unfold; hook_simpl; rewrite Hreply, Hmessage, Herror; hook_simpl.
    all: eexists; split; reflexivity.
  - intros rs Hreply.
    split; extra_unfold; hook_simpl; rewrite Hreply; hook_simpl.
    all: eexists; split; reflexivity.
Qed.

Lemma createReview_drops_warm_tour_reviews_witness :
  exists w',
    createReview Sample.healthy Sample.data1 Sample.warm
      = (inr (Result.okWith Sample.r1), w') /\
    ReviewsState.tourReviews (reviews (store w')) !! "t1" = None /\
    getTourReviews w' "t1" = Reviews [] /\
    (forall c succeeded t,
       (c, succeeded) ∈ issued Sample.warm w' -> c <> FetchTourReviews t).
Proof.
  destruct (createReview_drops_warm_tour_reviews Sample.healthy Sample.warm
              Sample.data1 Sample.r1 Sample.r1 [] eq_refl eq_refl)
    as (w' & Hrun & Hgone & Hempty & Hquiet).
  exists w'. repeat split; try assumption. now apply Hempty.
Defined.

(** ** Derived views of the user reviews *)

(** X12: [getUserReviewsWithTourInfo] returns the cached user reviews in
    order, each unchanged and with a [tourInfo] whose id is the review's
    tour: the data of a known tour with that id, or the placeholder
    'Unknown Tour' with the default cover when no known tour has it. *)
Theorem getUserReviewsWithTourInfo_keeps_reviews (w : World) (allTours : list Tour.t) :
  map ReviewWithTourInfo.review (getUserReviewsWithTourInfo w allTours)
    = ReviewsState.userReviews (reviews (store w)) /\
  (forall x,
     x ∈ getUserReviewsWithTourInfo w allTours ->
     TourInfo.id (ReviewWithTourInfo.tourInfo x)
       = Review.tour (ReviewWithTourInfo.review x) /\
     ((exists tour,
         tour ∈ allTours /\
         Tour.id tour = Review.tour (ReviewWithTourInfo.review x) /\
         ReviewWithTourInfo.tourInfo x
           = TourInfo.mk (Tour.id tour) (Tour.name tour) (Tour.slug tour)
                         (Tour.imageCover tour)) \/
      ((forall tour, tour ∈ allTours ->
                     Tour.id tour <> Review.tour (ReviewWithTourInfo.review x)) /\
       ReviewWithTourInfo.tourInfo x
         = TourInfo.mk (Review.tour (ReviewWithTourInfo.review x))
                       "Unknown Tour" "" "default-tour.jpg"))).
Proof.
  unfold getUserReviewsWithTourInfo, useReviews.getUserReviewsWithTourInfo.
  split.
  - rewrite map_map. rewrite <- (map_id (ReviewsState.userReviews _)) at 2.
    apply map_ext. intros review. now destruct (List.find _ _).
  - intros x [review [<- _]]%list_elem_of_In%in_map_iff.
    destruct (List.find _ allTours) as [tour|] eqn:Hfind;
      cbn [ReviewWithTourInfo.review ReviewWithTourInfo.tourInfo TourInfo.id].
    + apply List.find_some in Hfind as [Hin Hid%bool_decide_eq_true_1].
      split; [exact Hid|]. left. exists tour.
      rewrite list_elem_of_In. auto.
    + split; [reflexivity|]. right. split; [|reflexivity].
      intros tour Hin%list_elem_of_In Hid.
      pose proof (List.find_none _ _ Hfind _ Hin) as Hno. cbn in Hno.
      now rewrite (bool_decide_eq_true_2 _ Hid) in Hno.
Qed.

(** A review of the tour at the end of the list is found. *)
Lemma existsb_tour_app (rs : list Review.t) (r : Review.t) (tourId : string) :
  Review.tour r = tourId ->
  existsb (fun review => bool_decide (Review.tour review = tourId)) (rs ++ [r]) = true.
Proof.
  intros Htour. rewrite existsb_app. cbn [existsb].
  rewrite (bool_decide_eq_true_2 _ Htour). now rewrite orb_true_r.
Qed.

(** Removing the only review id of a tour leaves no review of the tour. *)
Lemma existsb_tour_filter (rs : list Review.t) (reviewId tourId : string) :
  (forall r, r ∈ rs -> Review.tour r = tourId -> Review.id r = reviewId) ->
  existsb (fun review => bool_decide (Review.tour review = tourId))
          (filter (fun x => Review.id x <> reviewId) rs) = false.
Proof.
  intros Honly. apply not_true_is_false. intros Hex.
  apply existsb_exists in Hex as [r [Hin Htour%bool_decide_eq_true_1]].
  apply list_elem_of_In, list_elem_of_filter in Hin as [Hid Hin]. eauto.
Qed.

(** X14: [hasUserReviewedTour] follows the mutations.  After an accepted
    [createReview] whose returned review is for the requested tour it holds
    for that tour on the next render; after an accepted [deleteReview] of
    the only cached review id of a tour it no longer holds for that tour. *)
Theorem hasUserReviewedTour_follows_mutations (backend : Backend) (w : World) :
  (forall reviewData newReview,
     on_createReview backend (length (calls w)) reviewData = inr newReview ->
     Review.tour newReview = CreateReviewData.tour reviewData ->
     exists w',
       createReview backend reviewData w = (inr (Result.okWith newReview), w') /\
       hasUserReviewedTour w' (CreateReviewData.tour reviewData) = true)
  /\
  (forall reviewId reviewToDelete u,
     userReview w reviewId = Some reviewToDelete ->
     on_deleteReview backend (length (calls w)) reviewId = inr u ->
     (forall r, r ∈ ReviewsState.userReviews (reviews (store w)) ->
                Review.tour r = Review.tour reviewToDelete ->
                Review.id r = reviewId) ->
     exists w',
       deleteReview backend reviewId w = (inr Result.ok, w') /\
       hasUserReviewedTour w' (Review.tour reviewToDelete) = false).
Proof.
  split.
  - intros reviewData newReview Hreply Htour.
    pose proof (existsb_tour_app (ReviewsState.userReviews (reviews (store w)))
                  _ _ Htour) as Hex.
    extra_unfold. hook_simpl. rewrite Hreply. hook_simpl. repeat hook_step.
    all: eexists; split; [reflexivity|]; hook_simpl; exact Hex.
  - intros reviewId reviewToDelete u Hreview Hreply Honly.
    pose proof (existsb_tour_filter _ _ _ Honly) as Hex.
    extra_unfold. hook_simpl. rewrite Hreview. hook_simpl. rewrite Hreply.
    hook_simpl. repeat hook_step.
    all: eexists; split; [reflexivity|]; hook_simpl; exact Hex.
Qed.

(** ** Busy flags *)

(** X15: no operation leaves its busy flag set.  Whatever the backend
    answers, the three review mutations end with [isSubmitting] false in
    the reviews slice, [loadUserReviews] and [loadUserBookings] end with
    [isLoading] false in their slice, and [updateBookingStatus] ends with
    [isSubmitting] false in the bookings slice. *)
Theorem operations_reset_busy_flags (backend : Backend) (w : World) :
  (forall reviewData, exists res w',
     createReview backend reviewData w = (inr res, w') /\
     ReviewsState.isSubmitting (reviews (store w')) = false)
  /\
  (forall reviewId updateData, exists res w',
     updateReview backend reviewId updateData w = (inr res, w') /\
     ReviewsState.isSubmitting (reviews (store w')) = false)
  /\
  (forall reviewId, exists res w',
     deleteReview backend reviewId w = (inr res, w') /\
     ReviewsState.isSubmitting (reviews (store w')) = false)
  /\
  (exists res w',
     loadUserReviews backend w = (inr res, w') /\
     ReviewsState.isLoading (reviews (store w')) = false)
  /\
  (exists res w',
     loadUserBookings backend w = (inr res, w') /\
     BookingsState.isLoading (bookings (store w')) = false)
  /\
  (forall bookingId status, exists res w',
     updateBookingStatus backend bookingId status w = (inr res, w') /\
     BookingsState.isSubmitting (bookings (store w')) = false).
Proof.
  repeat apply conj; intros; extra_unfold; hook_simpl; repeat hook_step.
  all: do 2 eexists; split; reflexivity.
Qed.


(** ** Creating and deleting a review in turn *)

(** A review with a fresh id appended to the list is the one found by its id. *)
Lemma find_app_fresh (rs : list Review.t) (r : Review.t) :
  List.find (fun x => bool_decide (Review.id x = Review.id r)) rs = None ->
  List.find (fun x => bool_decide (Review.id x = Review.id r)) (rs ++ [r]) = Some r.
Proof.
  induction rs as [|x rs IH]; cbn [List.find app].
  - intros _. now rewrite bool_decide_eq_true_2.
  - destruct (bool_decide (Review.id x = Review.id r)); [discriminate | exact IH].
Qed.

(** Removing a fresh id after appending it gives the list back. *)
Lemma filter_app_fresh (rs : list Review.t) (r : Review.t) :
  List.find (fun x => bool_decide (Review.id x = Review.id r)) rs = None ->
  filter (fun x => Review.id x <> Review.id r) (rs ++ [r]) = rs.
Proof.
  intros Hfresh. rewrite filter_app.
  rewrite (filter_cons_False _ r []) by (intros Hne; now apply Hne).
  rewrite filter_nil, app_nil_r.
  induction rs as [|x rs IH]; [reflexivity|].
  cbn [List.find] in Hfresh.
  destruct (bool_decide (Review.id x = Review.id r)) eqn:Hx; [discriminate|].
  apply bool_decide_eq_false_1 in Hx.
  rewrite filter_cons_True by exact Hx. now rewrite IH.
Qed.

(** X13: creating a review and then deleting it is a round trip.  Let the
    booking found for the tour be 'pending-review' and known to the remote
    store, let the backend accept the creation with a review of that tour
    whose id is not yet cached, and let it accept the deletion and the
    booking updates.  Then [createReview] followed by [deleteReview] of the
    new review returns success; the booking found for the tour is again the
    original one, the remote store holds 'pending-review' for it, and the
    cached user reviews are as before. *)
Theorem create_then_delete_round_trip
    (backend : Backend) (w w' : World) (reviewData : CreateReviewData.t)
    (newReview : Review.t) (booking : Booking.t) (remoteStatus : string)
    (out : Exn + Result.t) :
  findBookingByTourId w (CreateReviewData.tour reviewData) = Some booking ->
  Booking.status booking = "pending-review" ->
  remoteBookings w !! Booking.id booking = Some remoteStatus ->
  userReview w (Review.id newReview) = None ->
  Review.tour newReview = CreateReviewData.tour reviewData ->
  on_createReview backend (length (calls w)) reviewData = inr newReview ->
  (forall n reviewId, on_deleteReview backend n reviewId = inr tt) ->
  (forall n bookingId status, on_updateBookingStatus backend n bookingId status = inr tt) ->
  (createReview backend reviewData;;
   deleteReview backend (Review.id newReview)) w = (out, w') ->
  out = inr Result.ok /\
  findBookingByTourId w' (CreateReviewData.tour reviewData) = Some booking /\
  remoteBookings w' !! Booking.id booking = Some "pending-review" /\
  ReviewsState.userReviews (reviews (store w'))
    = ReviewsState.userReviews (reviews (store w)).
Proof.
  intros Hfind Hstatus Hremote Hfresh Htour Hcreate Hdelete Hupdate.
  pose proof (find_withStatus _ "reviewed" _ _ Hfind) as Hfind1.
  pose proof (find_withStatus _ "pending-review" _ _ Hfind1) as Hfind2.
  assert (withStatus "pending-review" (withStatus "reviewed" booking) = booking)
    as Hback
    by (destruct booking; cbn [Booking.status] in Hstatus; subst; reflexivity).
  rewrite Hback in Hfind2.
  pose proof (find_app_fresh _ _ Hfresh) as Hfound.
  pose proof (filter_app_fresh _ _ Hfresh) as Hfiltered.
  unfold bind at 1. unfold createReview at 1. extra_unfold.
  rewrite Hfind, (bool_decide_eq_true_2 _ Hstatus). hook_simpl.
  rewrite Hcreate. hook_simpl. rewrite Hremote, Hupdate. hook_simpl.
  repeat match goal with
         | |- context [readTourReviews
                         (ReviewsState.tourReviews (reviews (store w))) ?k] =>
             destruct (readTourReviews
                         (ReviewsState.tourReviews (reviews (store w))) k)
               as [[[|? ?]|[[|?]|]]|]; hook_simpl
         | |- context [on_fetchTourReviews ?b ?n ?t] =>
             destruct (on_fetchTourReviews b n t) eqn:?; hook_simpl
         end.
  all: rewrite Hfound; hook_simpl; rewrite Hdelete; hook_simpl.
  all: rewrite Htour, Hfind1; cbn [Booking.status Booking.id withStatus].
  all: rewrite (bool_decide_eq_true_2 ("reviewed" = "reviewed")) by reflexivity.
  all: hook_simpl; rewrite lookup_insert_eq, Hupdate; hook_simpl.
  all: repeat hook_step.
  all: intros [= <- <-]; hook_simpl.
  all: repeat split; [exact Hfind2 | apply lookup_insert_eq | exact Hfiltered].
Qed.

(** An instance: the booking b1 on a healthy backend. *)
Lemma create_then_delete_round_trip_witness :
  let out := (createReview Sample.healthy Sample.data1;;
              deleteReview Sample.healthy "r1") Sample.pending in
  fst out = inr Result.ok /\
  findBookingByTourId (snd out) "t1" = Some Sample.b1 /\
  remoteBookings (snd out) !! "b1" = Some "pending-review" /\
  ReviewsState.userReviews (reviews (store (snd out))) = [].
Proof.
  intros out.
  apply (create_then_delete_round_trip Sample.healthy Sample.pending (snd out)
           Sample.data1 Sample.r1 Sample.b1 "pending-review" (fst out));
    reflexivity.
Defined.



(** ** The bookings hook *)

(** After a status update by id, every booking with that id has the status. *)
Lemma updated_bookings_status (bookingId status : string) (bs : list Booking.t)
    (b : Booking.t) :
  b ∈ map (fun b => if bool_decide (Booking.id b = bookingId)
                    then withStatus status b else b) bs ->
  Booking.id b = bookingId ->
  Booking.status b = status.
Proof.
  intros [x [<- _]]%list_elem_of_In%in_map_iff.
  destruct (bool_decide (Booking.id x = bookingId)) eqn:Hx; [reflexivity|].
  apply bool_decide_eq_false_1 in Hx. intros Hid. now destruct Hx.
Qed.

(** X16: [updateBookingStatus] of [useBookings] writes the cache only
    after the remote store accepted the update.  It always returns a result
    and issues exactly the one status request; on success the remote store
    holds the status and every cached booking with that id has it; on
    failure the cached bookings and the remote statuses are untouched.  The
    error field of the bookings slice equals the error of the result. *)
Theorem updateBookingStatus_writes_cache_after_remote
    (backend : Backend) (w w' : World) (bookingId status : string)
    (out : Exn + Result.t) :
  updateBookingStatus backend bookingId status w = (out, w') ->
  exists res,
    out = inr res /\
    BookingsState.error (bookings (store w')) = Result.error res /\
    if Result.success res
    then remoteBookings w' !! bookingId = Some status /\
         issued w w' = [(PatchBookingStatus bookingId status, true)] /\
         (forall b, b ∈ BookingsState.userBookings (bookings (store w')) ->
                    Booking.id b = bookingId -> Booking.status b = status)
    else remoteBookings w' = remoteBookings w /\
         issued w w' = [(PatchBookingStatus bookingId status, false)] /\
         BookingsState.userBookings (bookings (store w'))
           = BookingsState.userBookings (bookings (store w)).
Proof.
  extra_unfold. hook_simpl. repeat hook_step.
  all: intros [= <- <-]; eexists; split; [reflexivity|]; hook_simpl.
  all: issued_norm; hook_simpl; repeat split; try reflexivity.
  - apply lookup_insert_eq.
  - apply updated_bookings_status.
Qed.

(** A booking just set to reviewed is not among the pending ones. *)
Lemma pending_excludes_updated (bookingId : string) (bs : list Booking.t)
    (b : Booking.t) :
  b ∈ List.filter (fun booking => bool_decide (Booking.status booking = "pending-review"))
        (map (fun b => if bool_decide (Booking.id b = bookingId)
                       then withStatus "reviewed" b else b) bs) ->
  Booking.id b <> bookingId.
Proof.
  intros [Hin Hpending%bool_decide_eq_true_1]%list_elem_of_In%filter_In Hid.
  apply list_elem_of_In in Hin.
  now rewrite (updated_bookings_status _ _ _ _ Hin Hid) in Hpending.
Qed.

(** X17: when the booking found for the tour is 'pending-review',
    [markBookingAsReviewed] returns the outcome of the remote update.  On
    success [getTourBookingStatus] gives 'reviewed' for the tour, the
    remote store holds 'reviewed', and no booking with that id is listed by
    [getPendingReviewBookings]; on failure the status of the tour is still
    'pending-review' and neither the cached bookings nor the remote
    statuses have changed. *)
Theorem markBookingAsReviewed_outcomes
    (backend : Backend) (w w' : World) (tourId : string) (booking : Booking.t)
    (out : Exn + Result.t) :
  findBookingByTourId w tourId = Some booking ->
  Booking.status booking = "pending-review" ->
  markBookingAsReviewed backend tourId w = (out, w') ->
  exists res,
    out = inr res /\
    if Result.success res
    then getTourBookingStatus w' tourId = Some "reviewed" /\
         remoteBookings w' !! Booking.id booking = Some "reviewed" /\
         (forall b, b ∈ getPendingReviewBookings w' ->
                    Booking.id b <> Booking.id booking)
    else getTourBookingStatus w' tourId = Some "pending-review" /\
         remoteBookings w' = remoteBookings w /\
         BookingsState.userBookings (bookings (store w'))
           = BookingsState.userBookings (bookings (store w)).
Proof.
  intros Hfind Hstatus.
  pose proof (find_withStatus _ "reviewed" _ _ Hfind) as Hlocal.
  revert Hfind. extra_unfold. intros Hfind.
  rewrite Hfind, (bool_decide_eq_true_2 _ Hstatus). hook_simpl.
  destruct (remoteBookings w !! Booking.id booking) eqn:Hremote; hook_simpl.
  1: destruct (on_updateBookingStatus backend _ _ _) eqn:Hreply; hook_simpl.
  all: intros [= <- <-]; eexists; split; [reflexivity|]; hook_simpl.
  all: rewrite ?Hfind, ?Hlocal, ?Hstatus; repeat split; try reflexivity.
  - apply lookup_insert_eq.
  - apply pending_excludes_updated.
Qed.

(** X19: [loadUserBookings] replaces the cached bookings by the fetched
    list when the fetch succeeds; when it fails it returns a failure, puts
    its message in the error field of the bookings slice and keeps the
    cached bookings.  The reviews slice is untouched either way. *)
Theorem loadUserBookings_replaces_or_keeps (backend : Backend) (w : World) :
  (forall bs,
     on_fetchUserBookings backend (length (calls w)) = inr bs ->
     exists w',
       loadUserBookings backend w = (inr Result.ok, w') /\
       BookingsState.userBookings (bookings (store w')) = bs /\
       reviews (store w') = reviews (store w))
  /\
  (forall e,
     on_fetchUserBookings backend (length (calls w)) = inl e ->
     exists errorMessage w',
       loadUserBookings backend w = (inr (Result.failure errorMessage), w') /\
       BookingsState.userBookings (bookings (store w'))
         = BookingsState.userBookings (bookings (store w)) /\
       BookingsState.error (bookings (store w')) = Some errorMessage /\
       reviews (store w') = reviews (store w)).
Proof.
  split.
  - intros bs Hreply. extra_unfold. hook_simpl. rewrite Hreply. hook_simpl.
    eexists; repeat split; reflexivity.
  - intros e Hreply. extra_unfold. hook_simpl. rewrite Hreply. hook_simpl.
    do 2 eexists; repeat split; reflexivity.
Qed.

Lemma updateBookingStatus_writes_cache_after_remote_witness :
  let run := updateBookingStatus Sample.bookingsDown "b1" "reviewed" Sample.pending in
  exists res,
    fst run = inr res /\
    BookingsState.error (bookings (store (snd run))) = Result.error res /\
    if Result.success res
    then remoteBookings (snd run) !! "b1" = Some "reviewed" /\
         issued Sample.pending (snd run) = [(PatchBookingStatus "b1" "reviewed", true)] /\
         (forall b, b ∈ BookingsState.userBookings (bookings (store (snd run))) ->
                    Booking.id b = "b1" -> Booking.status b = "reviewed")
    else remoteBookings (snd run) = remoteBookings Sample.pending /\
         issued Sample.pending (snd run)
           = [(PatchBookingStatus "b1" "reviewed", false)] /\
         BookingsState.userBookings (bookings (store (snd run)))
           = BookingsState.userBookings (bookings (store Sample.pending)).
Proof.
  intros run.
  apply (updateBookingStatus_writes_cache_after_remote Sample.bookingsDown
           Sample.pending (snd run) "b1" "reviewed" (fst run)).
  reflexivity.
Defined.

Lemma markBookingAsReviewed_outcomes_witness :
  let run := markBookingAsReviewed Sample.healthy "t1" Sample.pending in
  exists res,
    fst run = inr res /\
    if Result.success res
    then getTourBookingStatus (snd run) "t1" = Some "reviewed" /\
         remoteBookings (snd run) !! Booking.id Sample.b1 = Some "reviewed" /\
         (forall b, b ∈ getPendingReviewBookings (snd run) ->
                    Booking.id b <> Booking.id Sample.b1)
    else getTourBookingStatus (snd run) "t1" = Some "pending-review" /\
         remoteBookings (snd run) = remoteBookings Sample.pending /\
         BookingsState.userBookings (bookings (store (snd run)))
           = BookingsState.userBookings (bookings (store Sample.pending)).
Proof.
  intros run.
  apply (markBookingAsReviewed_outcomes Sample.healthy Sample.pending (snd run)
           "t1" Sample.b1 (fst run)); reflexivity.
Defined.


(** X18: marking a booking reviewed and then pending again is a round
    trip.  When the booking found for the tour is 'pending-review', known
    to the remote store, and the backend accepts the updates,
    [markBookingAsReviewed] followed by [markBookingAsPendingReview]
    succeeds, issues the two status requests in this order, and leaves the
    booking found for the tour as it was, 'pending-review' remotely too. *)
Theorem mark_reviewed_then_pending_round_trip
    (backend : Backend) (w w' : World) (tourId : string) (booking : Booking.t)
    (remoteStatus : string) (out : Exn + Result.t) :
  findBookingByTourId w tourId = Some booking ->
  Booking.status booking = "pending-review" ->
  remoteBookings w !! Booking.id booking = Some remoteStatus ->
  (forall n bookingId status, on_updateBookingStatus backend n bookingId status = inr tt) ->
  (markBookingAsReviewed backend tourId;;
   markBookingAsPendingReview backend tourId) w = (out, w') ->
  out = inr Result.ok /\
  findBookingByTourId w' tourId = Some booking /\
  remoteBookings w' !! Booking.id booking = Some "pending-review" /\
  issued w w' = [(PatchBookingStatus (Booking.id booking) "reviewed", true);
                 (PatchBookingStatus (Booking.id booking) "pending-review", true)].
Proof.
  intros Hfind Hstatus Hremote Hupdate.
  pose proof (find_withStatus _ "reviewed" _ _ Hfind) as Hfind1.
  pose proof (find_withStatus _ "pending-review" _ _ Hfind1) as Hfind2.
  assert (withStatus "pending-review" (withStatus "reviewed" booking) = booking)
    as Hback
    by (destruct booking; cbn [Booking.status] in Hstatus; subst; reflexivity).
  rewrite Hback in Hfind2.
  revert Hfind. extra_unfold. intros Hfind.
  rewrite Hfind, (bool_decide_eq_true_2 _ Hstatus). hook_simpl.
  rewrite Hremote, Hupdate. hook_simpl.
  rewrite Hfind1. cbn [Booking.status Booking.id withStatus].
  rewrite (bool_decide_eq_true_2 ("reviewed" = "reviewed")) by reflexivity.
  hook_simpl. rewrite lookup_insert_eq, Hupdate. hook_simpl.
  intros [= <- <-]. hook_simpl. issued_norm.
  repeat split; [exact Hfind2 | apply lookup_insert_eq].
Qed.

(** An instance: the booking b1 on a healthy backend. *)
Lemma mark_reviewed_then_pending_round_trip_witness :
  let out := (markBookingAsReviewed Sample.healthy "t1";;
              markBookingAsPendingReview Sample.healthy "t1") Sample.pending in
  fst out = inr Result.ok /\
  findBookingByTourId (snd out) "t1" = Some Sample.b1 /\
  remoteBookings (snd out) !! "b1" = Some "pending-review" /\
  issued Sample.pending (snd out)
    = [(PatchBookingStatus "b1" "reviewed", true);
       (PatchBookingStatus "b1" "pending-review", true)].
Proof.
  intros out.
  apply (mark_reviewed_then_pending_round_trip Sample.healthy Sample.pending
           (snd out) "t1" Sample.b1 "pending-review" (fst out)); reflexivity.
Defined.



(** ** The profile page of the user reviews *)

(** X20: [confirmDeleteReview] does nothing when no review is selected.
    With a selected review, it never throws; when the delete request was
    accepted the delete dialog is closed, no review is selected any more
    and no cached user review has the deleted id; otherwise the dialogs
    are as they were, the review is still selected, the error field is set
    and the cached user reviews are unchanged. *)
Theorem confirmDeleteReview_closes_on_success
    (backend : Backend) (w : World) (modals : ProfileReviews.Modals) :
  (ReviewsState.currentReview (reviews (store w)) = None ->
   confirmDeleteReview backend modals w = (inr modals, w))
  /\
  (forall current out w',
     ReviewsState.currentReview (reviews (store w)) = Some current ->
     confirmDeleteReview backend modals w = (out, w') ->
     exists modals',
       out = inr modals' /\
       ((DeleteReview (Review.id current), true) ∈ issued w w' ->
        modals' = ProfileReviews.mkModals (ProfileReviews.isEditingModalOpen modals) false /\
        ReviewsState.currentReview (reviews (store w')) = None /\
        (forall r, r ∈ ReviewsState.userReviews (reviews (store w')) ->
                   Review.id r <> Review.id current)) /\
       ((DeleteReview (Review.id current), true) ∉ issued w w' ->
        modals' = modals /\
        ReviewsState.currentReview (reviews (store w')) = Some current /\
        is_Some (ReviewsState.error (reviews (store w'))) /\
        ReviewsState.userReviews (reviews (store w'))
          = ReviewsState.userReviews (reviews (store w)))).
Proof.
  split.
  - intros Hnone. extra_unfold. now rewrite Hnone.
  - intros current out w' Hcurrent. extra_unfold. rewrite Hcurrent. hook_simpl.
    rewrite (bool_decide_eq_true_2 (Review.id current = Review.id current))
      by reflexivity.
    repeat hook_step.
    all: intros [= <- <-]; eexists; split; [reflexivity|]; issued_norm; hook_simpl.
    all: split; intros Hin.
    all: try solve [not_issued Hin].
    all: try solve [exfalso; apply Hin; here_or_further].
    all: repeat split; try reflexivity; eauto.
    all: intros r [Hr _]%list_elem_of_filter; exact Hr.
Qed.


(** X21: [handleEditSubmit] does nothing when no review is selected or
    the submitted data has no review id.  Otherwise its first request is
    the update of that review with the submitted rating and text and the
    current time; when the request was accepted the edit dialog is closed
    and no review is selected any more, otherwise the dialogs are as they
    were, the review is still selected and the cached user reviews are
    unchanged. *)
Theorem handleEditSubmit_closes_on_success
    (backend : Backend) (now : string) (w : World)
    (data : ProfileReviews.ReviewSubmitData) (modals : ProfileReviews.Modals) :
  (ReviewsState.currentReview (reviews (store w)) = None \/
   reviewsService.truthyString (ProfileReviews.reviewId data) = false ->
   handleEditSubmit backend now data modals w = (inr modals, w))
  /\
  (forall current reviewId out w',
     ReviewsState.currentReview (reviews (store w)) = Some current ->
     ProfileReviews.reviewId data = Some reviewId ->
     reviewId <> "" ->
     handleEditSubmit backend now data modals w = (out, w') ->
     let request :=
       PatchReview reviewId
         (UpdateReviewData.mk (Some (ProfileReviews.rating data))
                              (Some (ProfileReviews.review data)) (Some now)) in
     exists modals' succeeded,
       out = inr modals' /\
       head (issued w w') = Some (request, succeeded) /\
       if succeeded
       then modals' = ProfileReviews.mkModals false
                        (ProfileReviews.isDeleteModalOpen modals) /\
            ReviewsState.currentReview (reviews (store w')) = None
       else modals' = modals /\
            ReviewsState.currentReview (reviews (store w')) = Some current /\
            ReviewsState.userReviews (reviews (store w'))
              = ReviewsState.userReviews (reviews (store w))).
Proof.
  split.
  - intros [Hnone | Hfalsy]; extra_unfold.
    + now rewrite Hnone.
    + rewrite Hfalsy. now destruct (ReviewsState.currentReview _).
  - intros current reviewId out w' Hcurrent Hid Hne. extra_unfold.
    rewrite Hcurrent, Hid. cbn [reviewsService.truthyString negb default from_option id].
    rewrite (bool_decide_eq_false_2 _ Hne). extra_simpl.
    repeat hook_step.
    all: intros [= <- <-]; do 2 eexists; split; [reflexivity|]; issued_norm.
    all: hook_simpl; split; [reflexivity|]; hook_simpl.
    all: repeat split; first [reflexivity | exact Hcurrent].
Qed.

(** Searching the enriched reviews by id is searching the cached ones. *)
Lemma find_with_tour_info (s : ReviewsState.t) (allTours : list Tour.t)
    (reviewId : string) :
  ReviewWithTourInfo.review <$>
    List.find (fun r => bool_decide (Review.id (ReviewWithTourInfo.review r) = reviewId))
      (useReviews.getUserReviewsWithTourInfo s allTours)
  = List.find (fun r => bool_decide (Review.id r = reviewId))
      (ReviewsState.userReviews s).
Proof.
  unfold useReviews.getUserReviewsWithTourInfo.
  induction (ReviewsState.userReviews s) as [|r rs IH]; [reflexivity|].
  cbn [map List.find].
  destruct (List.find _ allTours); cbn [ReviewWithTourInfo.review].
  all: destruct (bool_decide (Review.id r = reviewId)); [reflexivity | exact IH].
Qed.

(** X22: [handleDeleteReview] of an id that no cached user review has
    does nothing.  Of a cached one it selects that review and opens the
    delete dialog without any request, and [confirmDeleteReview] at the
    next render then issues, first of all, the delete request for the id
    that was clicked. *)
Theorem delete_dialog_targets_clicked_review
    (backend : Backend) (allTours : list Tour.t) (w : World) (reviewId : string)
    (modals : ProfileReviews.Modals) :
  (userReview w reviewId = None ->
   handleDeleteReview allTours reviewId modals w = (inr modals, w))
  /\
  (forall r,
     userReview w reviewId = Some r ->
     exists w1,
       handleDeleteReview allTours reviewId modals w
         = (inr (ProfileReviews.mkModals
                   (ProfileReviews.isEditingModalOpen modals) true), w1) /\
       ReviewsState.currentReview (reviews (store w1)) = Some r /\
       issued w w1 = [] /\
       forall modals1 out w2,
         confirmDeleteReview backend modals1 w1 = (out, w2) ->
         exists succeeded,
           head (issued w1 w2) = Some (DeleteReview reviewId, succeeded)).
Proof.
  pose proof (find_with_tour_info (reviews (store w)) allTours reviewId) as Hmap.
  unfold userReview. split.
  - intros Hnone. rewrite Hnone in Hmap. extra_unfold.
    now destruct (List.find _ (useReviews.getUserReviewsWithTourInfo _ _)).
  - intros r Hsome. rewrite Hsome in Hmap.
    assert (Review.id r = reviewId) as Hid.
    { apply List.find_some in Hsome as [_ Hid]. now apply bool_decide_eq_true_1 in Hid. }
    extra_unfold.
    destruct (List.find _ (useReviews.getUserReviewsWithTourInfo _ _))
      as [x|]; [|discriminate Hmap].
    cbn in Hmap. injection Hmap as <-.
    destruct x as [[i rv ra cr up tr us] info].
    cbn [ReviewWithTourInfo.review Review.id Review.review Review.rating
         Review.createdAt Review.updatedAt Review.tour Review.user] in *.
    eexists; split; [reflexivity|]. hook_simpl. issued_norm.
    repeat split.
    intros modals1 out w2. extra_simpl. subst i. rewrite Hsome. hook_simpl.
    repeat hook_step.
    all: intros [= <- <-]; eexists; issued_norm; reflexivity.
Qed.

(** ** Tour ids that name inherited members *)

(** [tourReviews['constructor']] is the inherited function [Object], whose
    [length] is 1: even with an empty cache, [loadTourReviews] of that id
    returns success without a request. *)
Example loadTourReviews_at_constructor :
  loadTourReviews Sample.down "constructor" Sample.pending
  = (inr Result.ok, Sample.pending).
Proof. reflexivity. Qed.

(** [tourReviews['toString']] is an inherited function of [length] 0, and
    truthy: without any cached entry, [createReview] for that tour id takes
    the refresh step, which then fetches the reviews of the tour. *)
Example createReview_at_toString :
  issued Sample.unbooked
    (snd (createReview Sample.healthy (CreateReviewData.mk "toString" 5 "Great!")
            Sample.unbooked))
  = [(PostReview (CreateReviewData.mk "toString" 5 "Great!"), true);
     (FetchTourReviews "toString", true)].
Proof. reflexivity. Qed.

(** Once the own entry at an inherited key is cleared, the getter gives
    the inherited member, not the empty list. *)
Example getTourReviews_at_valueOf :
  let cached :=
    mkWorld (mkRoot (ReviewsState.mk {[ "valueOf" := [Sample.r1] ]} [] None
                                     false false None)
                    (Sample.bookingsOf []))
            ∅ [] in
  getTourReviews (snd (dispatch (clearTourReviews "valueOf") cached)) "valueOf"
  = Inherited (MFunction 0).
Proof. reflexivity. Qed.
